(** * To-Do list service: a shallow embedding of [main.py] and [models.py]

    The service keeps two module-level globals, [tasks_db] (a Python [dict]
    from task id to [Task]) and [next_id], and exposes five request handlers.
    The handlers are embedded as functions on an explicit [state]; the
    validation that pydantic performs on a request body before a handler runs
    is embedded next to the models it belongs to; [app] plays the role of the
    FastAPI application that routes a request to its handler. *)

From Stdlib Require Import ZArith List String Ascii Bool Lia.
From Stdlib Require Import DecimalString Sorted Permutation.
Import ListNotations.

Local Open Scope Z_scope.

(** ** The Python values the program handles *)

Module Py.

(** [len(s)] for a [str]; one [ascii] stands for one character. *)
Definition len (s : string) : Z := Z.of_nat (String.length s).

(** [str(n)] as used by an f-string on an [int]. *)
Definition str_of_int (n : Z) : string := NilZero.string_of_int (Z.to_int n).

(** [c * n] for a one-character string [c], as in ["x" * 201]. *)
Fixpoint str_mul (c : ascii) (n : nat) : string :=
  match n with
  | O => EmptyString
  | S n' => String c (str_mul c n')
  end.

(** [datetime] values: microseconds on the wall clock. *)
Definition datetime := Z.

(** A [dict] with [int] keys.  CPython keeps the entries in insertion
    order, and [values()] lists them in that order, so the entries are kept
    as an association list; a well-formed one has no key twice. *)
Section Dict.
Context {V : Type}.

Definition dict := list (Z * V).

(** [k in d] *)
Definition contains (d : dict) (k : Z) : bool :=
  existsb (fun e => fst e =? k) d.

(** [d[k]]; [None] stands for [KeyError]. *)
Definition getitem (d : dict) (k : Z) : option V :=
  option_map snd (find (fun e => fst e =? k) d).

(** [d[k] = v]: a present key keeps its position, a new key goes last. *)
Fixpoint setitem (d : dict) (k : Z) (v : V) : dict :=
  match d with
  | [] => [(k, v)]
  | e :: d' => if fst e =? k then (k, v) :: d' else e :: setitem d' k v
  end.

(** [del d[k]] *)
Definition delitem (d : dict) (k : Z) : dict :=
  filter (fun e => negb (fst e =? k)) d.

(** [d.keys()] and [d.values()] *)
Definition keys (d : dict) : list Z := map fst d.
Definition values (d : dict) : list V := map snd d.

Definition wf (d : dict) : Prop := NoDup (keys d).
End Dict.
Arguments dict V : clear implicits.

End Py.

(** ** models.py *)

(** A key of a JSON request body: not sent, sent as [null], or sent with a
    value of the field's type.  Bodies whose values have another JSON type
    are rejected by pydantic with a type error and are not modelled. *)
Inductive supplied (A : Type) : Type :=
| Unset
| Null
| Given (a : A).
Arguments Unset {A}.
Arguments Null {A}.
Arguments Given {A} a.

(** The body of a POST or PUT request.  Keys a model does not declare are
    ignored by it (pydantic's default). *)
Record json_body : Type := {
  body_title : supplied string;
  body_description : supplied string;
  body_completed : supplied bool
}.

Inductive field_name : Type := title_field | description_field | completed_field.

(** The per-field diagnostics of a pydantic [ValidationError]. *)
Inductive error_type : Type :=
| missing
| string_type
| string_too_short
| string_too_long.

Definition error_details := list (field_name * error_type).

(** The [min_length] / [max_length] constraints of a [Field] on a [str]. *)
Definition check_str (min_length max_length : option Z) (s : string)
  : option error_type :=
  match min_length with
  | Some lo =>
      if Py.len s <? lo then Some string_too_short
      else match max_length with
           | Some hi => if hi <? Py.len s then Some string_too_long else None
           | None => None
           end
  | None =>
      match max_length with
      | Some hi => if hi <? Py.len s then Some string_too_long else None
      | None => None
      end
  end.

Definition report (f : field_name) (e : option error_type) : error_details :=
  match e with
  | Some ty => [(f, ty)]
  | None => []
  end.

(** [TaskBase] / [TaskCreate]:
    [title: str = Field(..., min_length=1, max_length=200)],
    [description: Optional[str] = Field(None, max_length=1000)]. *)
Module TaskCreate.

Record t : Type := { title : string; description : option string }.

Definition title_errors (x : supplied string) : error_details :=
  match x with
  | Unset => [(title_field, missing)]
  | Null => [(title_field, string_type)]
  | Given s => report title_field (check_str (Some 1) (Some 200) s)
  end.

Definition description_errors (x : supplied string) : error_details :=
  match x with
  | Unset | Null => []
  | Given s => report description_field (check_str None (Some 1000) s)
  end.

Definition model_validate (b : json_body) : error_details + t :=
  match title_errors (body_title b) ++ description_errors (body_description b),
        body_title b with
  | [], Given s =>
      inr {| title := s;
             description := match body_description b with
                            | Given d => Some d
                            | _ => None
                            end |}
  | errs, _ => inl errs
  end.

End TaskCreate.

(** [TaskUpdate]: every field is [Optional] with default [None]; the
    length constraints bear on strings only, so an explicit [null] passes.
    The instance remembers which fields the body set ([model_fields_set]):
    [Unset] is a field left at its default, [Null] one set to [None]. *)
Module TaskUpdate.

Record t : Type := {
  title : supplied string;
  description : supplied string;
  completed : supplied bool
}.

Definition title_errors (x : supplied string) : error_details :=
  match x with
  | Unset | Null => []
  | Given s => report title_field (check_str (Some 1) (Some 200) s)
  end.

Definition description_errors (x : supplied string) : error_details :=
  match x with
  | Unset | Null => []
  | Given s => report description_field (check_str None (Some 1000) s)
  end.

Definition model_validate (b : json_body) : error_details + t :=
  match title_errors (body_title b) ++ description_errors (body_description b) with
  | [] => inr {| title := body_title b;
                 description := body_description b;
                 completed := body_completed b |}
  | errs => inl errs
  end.

(** One entry of the dict that [model_dump] returns. *)
Inductive item : Type :=
| title_item (v : option string)
| description_item (v : option string)
| completed_item (v : option bool).

Definition dump_field {A} (mk : option A -> item) (x : supplied A) : list item :=
  match x with
  | Unset => []
  | Null => [mk None]
  | Given a => [mk (Some a)]
  end.

(** [model_dump(exclude_unset=True)] *)
Definition model_dump_exclude_unset (u : t) : list item :=
  dump_field title_item (title u)
  ++ dump_field description_item (description u)
  ++ dump_field completed_item (completed u).

End TaskUpdate.

(** [Task].  The class declares [title: str] and [completed: bool], but it
    does not validate assignments, so after a [setattr] either attribute can
    hold [None]; the attributes are typed by what they can hold. *)
Module Task.

Record t : Type := {
  id : Z;
  title : option string;
  description : option string;
  completed : option bool;
  created_at : Py.datetime;
  updated_at : Py.datetime
}.

(** [setattr(task, field, value)] for an entry of the dumped update. *)
Definition setattr (task : t) (it : TaskUpdate.item) : t :=
  match it with
  | TaskUpdate.title_item v =>
      {| id := id task; title := v; description := description task;
         completed := completed task;
         created_at := created_at task; updated_at := updated_at task |}
  | TaskUpdate.description_item v =>
      {| id := id task; title := title task; description := v;
         completed := completed task;
         created_at := created_at task; updated_at := updated_at task |}
  | TaskUpdate.completed_item v =>
      {| id := id task; title := title task; description := description task;
         completed := v;
         created_at := created_at task; updated_at := updated_at task |}
  end.

(** [task.updated_at = value] *)
Definition set_updated_at (task : t) (now : Py.datetime) : t :=
  {| id := id task; title := title task; description := description task;
     completed := completed task;
     created_at := created_at task; updated_at := now |}.

(** [task.completed == flag] for a [bool] flag: [None == flag] is false. *)
Definition completed_eq (task : t) (flag : bool) : bool :=
  match completed task with
  | Some b => Bool.eqb b flag
  | None => false
  end.

End Task.

(** ** main.py *)

(** The module globals, and how many times the wall clock has been read. *)
Record state : Type := {
  tasks_db : Py.dict Task.t;
  next_id : Z;
  clock_reads : nat
}.

(** [tasks_db = {}], [next_id = 1] *)
Definition init_state : state :=
  {| tasks_db := []; next_id := 1; clock_reads := 0 |}.

(** What a handler does: return a value, or raise (an [HTTPException], or
    the [KeyError] of a failed dict access). *)
Inductive result (A : Type) : Type :=
| Return (a : A)
| HTTPException (status_code : Z) (detail : string)
| KeyError (k : Z).
Arguments Return {A} a.
Arguments HTTPException {A} status_code detail.
Arguments KeyError {A} k.

Definition HTTP_200_OK := 200.
Definition HTTP_201_CREATED := 201.
Definition HTTP_204_NO_CONTENT := 204.
Definition HTTP_404_NOT_FOUND := 404.
Definition HTTP_422_UNPROCESSABLE := 422.
Definition HTTP_500_INTERNAL := 500.

Section Handlers.

(** The wall clock: [clock n] is what the [n]-th call of [datetime.now()]
    returns.  The program assumes nothing about it. *)
Variable clock : nat -> Py.datetime.

(** [datetime.now()] *)
Definition datetime_now (st : state) : Py.datetime * state :=
  (clock (clock_reads st),
   {| tasks_db := tasks_db st; next_id := next_id st;
      clock_reads := S (clock_reads st) |}).

(** [get_tasks(completed)]: the loop appends the matching tasks to
    [results] in the order of [tasks_db.values()]. *)
Definition get_tasks (completed : option bool) (st : state) : list Task.t :=
  match completed with
  | None => Py.values (tasks_db st)
  | Some flag =>
      fold_left
        (fun results task =>
           if Task.completed_eq task flag then results ++ [task] else results)
        (Py.values (tasks_db st)) []
  end.

(** [get_task(task_id)] *)
Definition get_task (task_id : Z) (st : state) : result Task.t :=
  if negb (Py.contains (tasks_db st) task_id) then
    HTTPException HTTP_404_NOT_FOUND
      ("Error: Task with the id " ++ Py.str_of_int task_id ++ " not found")%string
  else
    match Py.getitem (tasks_db st) task_id with
    | Some task => Return task
    | None => KeyError task_id
    end.

(** [create_task(task_data)]: the keyword arguments of [Task(...)] are
    evaluated in order, so the clock is read for [created_at] and then read
    again for [updated_at]. *)
Definition create_task (task_data : TaskCreate.t) (st : state)
  : Task.t * state :=
  let (created, st1) := datetime_now st in
  let (updated, st2) := datetime_now st1 in
  let new_task :=
    {| Task.id := next_id st;
       Task.title := Some (TaskCreate.title task_data);
       Task.description := TaskCreate.description task_data;
       Task.completed := Some false;
       Task.created_at := created;
       Task.updated_at := updated |} in
  (new_task,
   {| tasks_db := Py.setitem (tasks_db st2) (next_id st2) new_task;
      next_id := next_id st2 + 1;
      clock_reads := clock_reads st2 |}).

(** [update_task(task_id, task_data)]: [task] is the object the dict holds,
    so the assignments change the stored entry in place. *)
Definition update_task (task_id : Z) (task_data : TaskUpdate.t) (st : state)
  : result Task.t * state :=
  if negb (Py.contains (tasks_db st) task_id) then
    (HTTPException HTTP_404_NOT_FOUND
       ("Task with the id " ++ Py.str_of_int task_id ++ " not found")%string,
     st)
  else
    match Py.getitem (tasks_db st) task_id with
    | None => (KeyError task_id, st)
    | Some task =>
        let update_data := TaskUpdate.model_dump_exclude_unset task_data in
        let task1 := fold_left Task.setattr update_data task in
        let (now, st1) := datetime_now st in
        let task2 := Task.set_updated_at task1 now in
        (Return task2,
         {| tasks_db := Py.setitem (tasks_db st1) task_id task2;
            next_id := next_id st1;
            clock_reads := clock_reads st1 |})
    end.

(** [delete_task(task_id)] *)
Definition delete_task (task_id : Z) (st : state) : result unit * state :=
  if negb (Py.contains (tasks_db st) task_id) then
    (HTTPException HTTP_404_NOT_FOUND
       ("Task with the id " ++ Py.str_of_int task_id ++ " not found")%string,
     st)
  else
    (Return tt,
     {| tasks_db := Py.delitem (tasks_db st) task_id;
        next_id := next_id st;
        clock_reads := clock_reads st |}).

(** *** The application: routing, body validation, status codes *)

Inductive request : Type :=
| GET_tasks (completed : option bool)
| GET_task (task_id : Z)
| POST_tasks (body : json_body)
| PUT_task (task_id : Z) (body : json_body)
| DELETE_task (task_id : Z).

Inductive response : Type :=
| TaskList (status_code : Z) (tasks : list Task.t)
| TaskBody (status_code : Z) (task : Task.t)
| NoContent (status_code : Z)
| ErrorDetail (status_code : Z) (detail : string)
| ValidationError (status_code : Z) (errors : error_details)
| ServerError (status_code : Z).

Definition respond {A} (ok : A -> response) (r : result A) : response :=
  match r with
  | Return a => ok a
  | HTTPException code detail => ErrorDetail code detail
  | KeyError _ => ServerError HTTP_500_INTERNAL
  end.

(** One request: the body is validated against the handler's parameter
    model first, and an invalid body is answered with 422 without the
    handler being called. *)
Definition app (req : request) (st : state) : response * state :=
  match req with
  | GET_tasks completed =>
      (TaskList HTTP_200_OK (get_tasks completed st), st)
  | GET_task task_id =>
      (respond (TaskBody HTTP_200_OK) (get_task task_id st), st)
  | POST_tasks body =>
      match TaskCreate.model_validate body with
      | inl errors => (ValidationError HTTP_422_UNPROCESSABLE errors, st)
      | inr task_data =>
          let (task, st') := create_task task_data st in
          (TaskBody HTTP_201_CREATED task, st')
      end
  | PUT_task task_id body =>
      match TaskUpdate.model_validate body with
      | inl errors => (ValidationError HTTP_422_UNPROCESSABLE errors, st)
      | inr task_data =>
          let (r, st') := update_task task_id task_data st in
          (respond (TaskBody HTTP_200_OK) r, st')
      end
  | DELETE_task task_id =>
      let (r, st') := delete_task task_id st in
      (respond (fun _ => NoContent HTTP_204_NO_CONTENT) r, st')
  end.

(** A session: the requests are served one after the other. *)
Fixpoint serve (reqs : list request) (st : state) : list response * state :=
  match reqs with
  | [] => ([], st)
  | req :: reqs' =>
      let (resp, st1) := app req st in
      let (resps, st2) := serve reqs' st1 in
      (resp :: resps, st2)
  end.

(** The states the service can be in. *)
Inductive reachable : state -> Prop :=
| reachable_init : reachable init_state
| reachable_app req st :
    reachable st -> reachable (snd (app req st)).

End Handlers.

(** ** Vocabulary of the specification *)

(** A stored title is a string of 1 to 200 characters. *)
Definition title_ok (task : Task.t) : bool :=
  match Task.title task with
  | Some s => (1 <=? Py.len s) && (Py.len s <=? 200)
  | None => false
  end.

(** A stored description, when there is one, has at most 1000 characters. *)
Definition description_ok (task : Task.t) : bool :=
  match Task.description task with
  | Some d => Py.len d <=? 1000
  | None => true
  end.

Definition task_fields_ok (task : Task.t) : bool :=
  title_ok task && description_ok task.

Definition fields_invariant (st : state) : Prop :=
  forall task, In task (Py.values (tasks_db st)) -> task_fields_ok task = true.

(** The two domain failures, as the caller sees them. *)
Definition is_not_found (r : response) : bool :=
  match r with
  | ErrorDetail code _ => code =? HTTP_404_NOT_FOUND
  | _ => false
  end.

Definition is_validation_error (r : response) : bool :=
  match r with
  | ValidationError code _ => code =? HTTP_422_UNPROCESSABLE
  | _ => false
  end.

(** [sub] occurs in [s]. *)
Definition includes (s sub : string) : Prop :=
  exists pre post, s = (pre ++ sub ++ post)%string.

(** The id that a response announces as newly created: 201 is the status
    of a successful Create and of nothing else. *)
Definition created_id (r : response) : list Z :=
  match r with
  | TaskBody code task =>
      if code =? HTTP_201_CREATED then [Task.id task] else []
  | _ => []
  end.

(** The ids that the successful Create calls of a session returned. *)
Definition created_ids (resps : list response) : list Z :=
  flat_map created_id resps.

(** [first], [first + 1], ... ([n] numbers). *)
Fixpoint count_from (first : Z) (n : nat) : list Z :=
  match n with
  | O => []
  | S n' => first :: count_from (first + 1) n'
  end.

(** What a patch field does to the attribute it bears on. *)
Definition overwrite {A} (x : supplied A) (old : option A) : option A :=
  match x with
  | Unset => old
  | Null => None
  | Given a => Some a
  end.

(** The task an Update leaves behind, field by field. *)
Definition patched (task : Task.t) (u : TaskUpdate.t) (now : Py.datetime) : Task.t :=
  {| Task.id := Task.id task;
     Task.title := overwrite (TaskUpdate.title u) (Task.title task);
     Task.description := overwrite (TaskUpdate.description u) (Task.description task);
     Task.completed := overwrite (TaskUpdate.completed u) (Task.completed task);
     Task.created_at := Task.created_at task;
     Task.updated_at := now |}.

Definition empty_patch : json_body :=
  {| body_title := Unset; body_description := Unset; body_completed := Unset |}.

(** The length constraints that Create puts on the strings of a body. *)
Definition strings_within_limits (b : json_body) : bool :=
  match body_title b with
  | Given s => (1 <=? Py.len s) && (Py.len s <=? 200)
  | _ => true
  end
  &&
  match body_description b with
  | Given d => Py.len d <=? 1000
  | _ => true
  end.

(** A field that the body supplies is one that Create would reject: the
    validators of [TaskCreate] are run on the supplied keys only. *)
Definition violates_create_constraints (b : json_body) : bool :=
  match body_title b with
  | Unset => false
  | x => match TaskCreate.title_errors x with [] => false | _ => true end
  end
  ||
  match body_description b with
  | Unset => false
  | x => match TaskCreate.description_errors x with [] => false | _ => true end
  end.

(** A request that sends [null] as the title of an Update. *)
Definition sets_title_null (req : request) : bool :=
  match req with
  | PUT_task _ body =>
      match body_title body with
      | Null => true
      | _ => false
      end
  | _ => false
  end.

(** Every stored [completed] attribute holds a boolean. *)
Definition flags_are_bool (st : state) : Prop :=
  forall task, In task (Py.values (tasks_db st)) -> Task.completed task <> None.

(** What holds of the globals in every state the service reaches. *)
Record store_inv (st : state) : Prop := {
  inv_wf : Py.wf (tasks_db st);
  inv_ids : Forall (fun e => Task.id (snd e) = fst e) (tasks_db st);
  inv_fresh : Forall (fun k => k < next_id st) (Py.keys (tasks_db st));
  inv_seed : 1 <= next_id st
}.

(** The status code of a response. *)
Definition status_of (r : response) : Z :=
  match r with
  | TaskList code _ => code
  | TaskBody code _ => code
  | NoContent code => code
  | ErrorDetail code _ => code
  | ValidationError code _ => code
  | ServerError code => code
  end.

(** The path parameter of a request, for the routes that have one. *)
Definition request_id (req : request) : option Z :=
  match req with
  | GET_task task_id | PUT_task task_id _ | DELETE_task task_id => Some task_id
  | GET_tasks _ | POST_tasks _ => None
  end.

(** A request that only reads. *)
Definition is_read (req : request) : bool :=
  match req with
  | GET_tasks _ | GET_task _ => true
  | _ => false
  end.

(** A clock that never goes back. *)
Definition monotone (clock : nat -> Py.datetime) : Prop :=
  forall i j, (i <= j)%nat -> clock i <= clock j.

(** Every stored task carries two readings of the clock, the one stored as
    [created_at] taken no later than the one stored as [updated_at]. *)
Definition stamped (clock : nat -> Py.datetime) (st : state) : Prop :=
  forall task, In task (Py.values (tasks_db st)) ->
    exists i j, (i <= j < clock_reads st)%nat /\
                Task.created_at task = clock i /\
                Task.updated_at task = clock j.

(** test_main.py, the [clear_database] fixture, as run before and after each
    test: [tasks_db.clear()] and [main.next_id = 1]. *)
Definition clear_database (st : state) : state :=
  {| tasks_db := []; next_id := 1; clock_reads := clock_reads st |}.

(** The clock as a process started after [k] readings sees it. *)
Definition later (k : nat) (clock : nat -> Py.datetime) : nat -> Py.datetime :=
  fun n => clock (k + n)%nat.

(** The keys of the mapping are in increasing order and start at 1 or
    above. *)
Definition keys_ascending (st : state) : Prop :=
  StronglySorted Z.lt (Py.keys (tasks_db st)) /\
  Forall (fun k => 1 <= k) (Py.keys (tasks_db st)).

(** The task that takes the place of the one bearing [task_id] in a list. *)
Definition replace_task (task_id : Z) (new : Task.t) (tasks : list Task.t)
  : list Task.t :=
  map (fun task => if Task.id task =? task_id then new else task) tasks.

(** Two clocks for examples: one that ticks at every reading, one that is
    too coarse to tell two readings apart. *)
Definition ticking_clock (n : nat) : Py.datetime := Z.of_nat n.
Definition frozen_clock (n : nat) : Py.datetime := 0.

(** * Properties *)

(** ** Dictionaries *)

Section DictFacts.
Context {V : Type}.
Implicit Types (d : Py.dict V) (k : Z) (v : V).

Lemma contains_keys d k : Py.contains d k = true <-> In k (Py.keys d).
Proof.
  unfold Py.contains, Py.keys. rewrite existsb_exists, in_map_iff.
  split; intros [e [H1 H2]]; exists e.
  - apply Z.eqb_eq in H2. tauto.
  - split; [tauto | now apply Z.eqb_eq].
Qed.

Lemma getitem_cons d k e :
  Py.getitem (e :: d) k = if fst e =? k then Some (snd e) else Py.getitem d k.
Proof. unfold Py.getitem. simpl. destruct (fst e =? k); reflexivity. Qed.

Lemma contains_cons d k e :
  Py.contains (e :: d) k = (fst e =? k) || Py.contains d k.
Proof. reflexivity. Qed.

Lemma getitem_contains d k :
  Py.contains d k = true <-> exists v, Py.getitem d k = Some v.
Proof.
  induction d as [|e d IH].
  - simpl. split; [discriminate | intros [v H]; discriminate].
  - rewrite contains_cons, getitem_cons. destruct (fst e =? k); simpl.
    + split; [eauto | reflexivity].
    + exact IH.
Qed.

Lemma getitem_absent d k :
  Py.contains d k = false <-> Py.getitem d k = None.
Proof.
  induction d as [|e d IH].
  - simpl. split; reflexivity.
  - rewrite contains_cons, getitem_cons. destruct (fst e =? k); simpl.
    + split; discriminate.
    + exact IH.
Qed.

Lemma getitem_In d k v : Py.getitem d k = Some v -> In (k, v) d.
Proof.
  induction d as [|[k0 v0] d IH]; [discriminate|].
  rewrite getitem_cons. simpl. destruct (Z.eqb_spec k0 k).
  - intros H. injection H as <-. subst. now left.
  - intros H. right. now apply IH.
Qed.

Lemma getitem_setitem d k v : Py.getitem (Py.setitem d k v) k = Some v.
Proof.
  induction d as [|e d IH]; simpl.
  - rewrite getitem_cons. simpl. now rewrite Z.eqb_refl.
  - destruct (fst e =? k) eqn:E; rewrite getitem_cons; simpl.
    + now rewrite Z.eqb_refl.
    + now rewrite E.
Qed.

Lemma getitem_setitem_other d k k' v :
  k' <> k -> Py.getitem (Py.setitem d k v) k' = Py.getitem d k'.
Proof.
  intros Hne. induction d as [|e d IH]; simpl.
  - rewrite getitem_cons. simpl.
    destruct (Z.eqb_spec k k'); [congruence | reflexivity].
  - destruct (Z.eqb_spec (fst e) k) as [E|E]; rewrite !getitem_cons; simpl.
    + destruct (Z.eqb_spec k k'); [congruence|].
      destruct (Z.eqb_spec (fst e) k'); [congruence | reflexivity].
    + now rewrite IH.
Qed.

Lemma contains_setitem d k k' v :
  Py.contains (Py.setitem d k v) k' = (k =? k') || Py.contains d k'.
Proof.
  induction d as [|e d IH]; simpl.
  - reflexivity.
  - destruct (Z.eqb_spec (fst e) k) as [E|E]; rewrite !contains_cons; simpl.
    + rewrite E. now destruct (k =? k').
    + rewrite IH. destruct (fst e =? k'), (k =? k'); reflexivity.
Qed.

Lemma setitem_absent d k v :
  Py.contains d k = false -> Py.setitem d k v = d ++ [(k, v)].
Proof.
  induction d as [|e d IH]; simpl; [reflexivity|].
  destruct (fst e =? k); simpl; [discriminate|].
  intros H. now rewrite IH.
Qed.

Lemma keys_setitem_present d k v :
  Py.contains d k = true -> Py.keys (Py.setitem d k v) = Py.keys d.
Proof.
  induction d as [|e d IH]; simpl; [discriminate|].
  destruct (Z.eqb_spec (fst e) k) as [E|E]; simpl.
  - intros _. now rewrite E.
  - intros H. now rewrite IH.
Qed.

Lemma In_setitem d k v e :
  In e (Py.setitem d k v) -> e = (k, v) \/ In e d.
Proof.
  induction d as [|e0 d IH]; simpl.
  - intros [H|[]]. now left.
  - destruct (fst e0 =? k); simpl.
    + intros [H|H]; [now left | right; now right].
    + intros [H|H]; [right; now left|].
      destruct (IH H) as [H'|H']; [now left | right; now right].
Qed.

Lemma Forall_setitem (P : Z * V -> Prop) d k v :
  Forall P d -> P (k, v) -> Forall P (Py.setitem d k v).
Proof.
  intros Hd Hv. apply Forall_forall. intros e He.
  destruct (In_setitem _ _ _ _ He) as [->|H]; [assumption|].
  rewrite Forall_forall in Hd. now apply Hd.
Qed.

Lemma contains_delitem d k k' :
  Py.contains (Py.delitem d k) k' = negb (k =? k') && Py.contains d k'.
Proof.
  induction d as [|e d IH]; simpl.
  - now rewrite andb_false_r.
  - destruct (Z.eqb_spec (fst e) k) as [E|E]; simpl.
    + rewrite IH, E. destruct (k =? k'); reflexivity.
    + rewrite IH. destruct (Z.eqb_spec (fst e) k') as [E'|E']; simpl.
      * destruct (Z.eqb_spec k k'); [congruence | reflexivity].
      * reflexivity.
Qed.

Lemma getitem_delitem_other d k k' :
  k' <> k -> Py.getitem (Py.delitem d k) k' = Py.getitem d k'.
Proof.
  intros Hne. induction d as [|e d IH]; simpl; [reflexivity|].
  destruct (Z.eqb_spec (fst e) k) as [E|E]; simpl; rewrite !getitem_cons.
  - destruct (Z.eqb_spec (fst e) k'); [congruence | exact IH].
  - now rewrite IH.
Qed.

Lemma keys_delitem d k :
  Py.keys (Py.delitem d k) = filter (fun k' => negb (k' =? k)) (Py.keys d).
Proof.
  induction d as [|e d IH]; simpl; [reflexivity|].
  destruct (fst e =? k); simpl; now rewrite IH.
Qed.

Lemma wf_delitem d k : Py.wf d -> Py.wf (Py.delitem d k).
Proof.
  unfold Py.wf. rewrite keys_delitem. apply NoDup_filter.
Qed.

Lemma wf_setitem d k v : Py.wf d -> Py.wf (Py.setitem d k v).
Proof.
  unfold Py.wf. intros H. destruct (Py.contains d k) eqn:E.
  - now rewrite keys_setitem_present.
  - rewrite setitem_absent by assumption. unfold Py.keys.
    rewrite map_app. simpl.
    apply NoDup_incl_NoDup with (l := k :: map fst d).
    + constructor; [|exact H].
      intros Hin. apply contains_keys in Hin. congruence.
    + rewrite length_app. simpl. lia.
    + intros x Hx. apply in_or_app. simpl in *. tauto.
Qed.

(** Deleting a present key of a well-formed dict removes one entry. *)
Lemma length_delitem d k :
  Py.wf d -> Py.contains d k = true ->
  S (List.length (Py.delitem d k)) = List.length d.
Proof.
  unfold Py.wf. induction d as [|e d IH]; simpl; [discriminate|].
  intros Hwf. inversion Hwf as [|? ? Hnotin Hwf']; subst.
  destruct (Z.eqb_spec (fst e) k) as [E|E]; simpl.
  - intros _. f_equal. subst k.
    clear IH Hwf Hwf'. induction d as [|e' d IH]; simpl; [reflexivity|].
    destruct (Z.eqb_spec (fst e') (fst e)) as [E'|E']; simpl.
    + exfalso. apply Hnotin. simpl. now left.
    + f_equal. apply IH. intros Hin. apply Hnotin. simpl. now right.
  - intros H. f_equal. now apply IH.
Qed.

Lemma In_delitem d k e : In e (Py.delitem d k) <-> In e d /\ fst e <> k.
Proof.
  unfold Py.delitem. rewrite filter_In.
  destruct (Z.eqb_spec (fst e) k); simpl; intuition congruence.
Qed.

End DictFacts.

(** ** Validation *)

Lemma check_str_create_title s :
  check_str (Some 1) (Some 200) s = None <-> 1 <= Py.len s <= 200.
Proof.
  unfold check_str.
  destruct (Z.ltb_spec (Py.len s) 1); [split; [discriminate | lia]|].
  destruct (Z.ltb_spec 200 (Py.len s)); split; try discriminate; try lia.
  reflexivity.
Qed.

Lemma check_str_description s :
  check_str None (Some 1000) s = None <-> Py.len s <= 1000.
Proof.
  unfold check_str.
  destruct (Z.ltb_spec 1000 (Py.len s)); split; try discriminate; try lia.
  reflexivity.
Qed.

Lemma report_nil f e : report f e = [] <-> e = None.
Proof. destruct e; simpl; split; congruence. Qed.

(** A PUT body passes [TaskUpdate] exactly when its strings are within the
    limits, and the model then holds the body's three keys as sent. *)
Lemma TaskUpdate_validate_spec b :
  match TaskUpdate.model_validate b with
  | inr u =>
      strings_within_limits b = true /\
      u = {| TaskUpdate.title := body_title b;
             TaskUpdate.description := body_description b;
             TaskUpdate.completed := body_completed b |}
  | inl errs => strings_within_limits b = false /\ errs <> []
  end.
Proof.
  unfold TaskUpdate.model_validate, strings_within_limits.
  unfold TaskUpdate.title_errors, TaskUpdate.description_errors, check_str, report.
  destruct (body_title b) as [| |s], (body_description b) as [| |d]; simpl;
    repeat match goal with
           | |- context [?x <? ?y] => destruct (Z.ltb_spec x y); simpl
           | |- context [?x <=? ?y] => destruct (Z.leb_spec x y); simpl
           end;
    try lia; split; (reflexivity || discriminate).
Qed.

(** A POST body passes [TaskCreate] exactly when it has a title of 1 to 200
    characters and no description over 1000 characters. *)
Lemma TaskCreate_validate_inr b task_data :
  TaskCreate.model_validate b = inr task_data <->
  exists s,
    body_title b = Given s /\ 1 <= Py.len s <= 200 /\
    match body_description b with
    | Given d => Py.len d <= 1000
    | _ => True
    end /\
    task_data = {| TaskCreate.title := s;
                   TaskCreate.description :=
                     match body_description b with
                     | Given d => Some d
                     | _ => None
                     end |}.
Proof.
  unfold TaskCreate.model_validate.
  unfold TaskCreate.title_errors, TaskCreate.description_errors, check_str, report.
  destruct (body_title b) as [| |s], (body_description b) as [| |d]; simpl;
    repeat match goal with
           | |- context [?x <? ?y] => destruct (Z.ltb_spec x y); simpl
           end;
    (split;
     [ intros Hv; try discriminate; injection Hv as <-; eexists;
       repeat split; try reflexivity; lia
     | intros (s' & Hs & Hlen & Hd & ->); try discriminate;
       injection Hs as <-; try reflexivity; lia ]).
Qed.

(** ** The handlers, equation by equation *)

Section HandlerFacts.
Variable clock : nat -> Py.datetime.

(** The loop of [get_tasks] is a filter. *)
Lemma filter_loop (flag : bool) (tasks acc : list Task.t) :
  fold_left
    (fun results task =>
       if Task.completed_eq task flag then results ++ [task] else results)
    tasks acc
  = acc ++ filter (fun task => Task.completed_eq task flag) tasks.
Proof.
  revert acc. induction tasks as [|task tasks IH]; intros acc; simpl.
  - now rewrite app_nil_r.
  - rewrite IH. destruct (Task.completed_eq task flag); [|reflexivity].
    now rewrite <- app_assoc.
Qed.

Lemma get_tasks_filter flag st :
  get_tasks (Some flag) st
  = filter (fun task => Task.completed_eq task flag) (Py.values (tasks_db st)).
Proof. unfold get_tasks. now rewrite filter_loop. Qed.

(** The [setattr] loop followed by the timestamp assignment writes exactly
    the fields that the body set. *)
Lemma setattr_loop task u now :
  Task.set_updated_at
    (fold_left Task.setattr (TaskUpdate.model_dump_exclude_unset u) task) now
  = patched task u now.
Proof.
  destruct u as [[| |s] [| |d] [| |c]], task; reflexivity.
Qed.

Lemma create_task_eq task_data st :
  create_task clock task_data st =
  let new_task :=
    {| Task.id := next_id st;
       Task.title := Some (TaskCreate.title task_data);
       Task.description := TaskCreate.description task_data;
       Task.completed := Some false;
       Task.created_at := clock (clock_reads st);
       Task.updated_at := clock (S (clock_reads st)) |} in
  (new_task,
   {| tasks_db := Py.setitem (tasks_db st) (next_id st) new_task;
      next_id := next_id st + 1;
      clock_reads := S (S (clock_reads st)) |}).
Proof. reflexivity. Qed.

Lemma update_task_absent task_id u st :
  Py.contains (tasks_db st) task_id = false ->
  update_task clock task_id u st =
  (HTTPException HTTP_404_NOT_FOUND
     ("Task with the id " ++ Py.str_of_int task_id ++ " not found")%string, st).
Proof. unfold update_task. now intros ->. Qed.

Lemma update_task_present task_id u st task :
  Py.getitem (tasks_db st) task_id = Some task ->
  update_task clock task_id u st =
  let task' := patched task u (clock (clock_reads st)) in
  (Return task',
   {| tasks_db := Py.setitem (tasks_db st) task_id task';
      next_id := next_id st;
      clock_reads := S (clock_reads st) |}).
Proof.
  intros Hget. unfold update_task.
  assert (Hin : Py.contains (tasks_db st) task_id = true)
    by (apply getitem_contains; eauto).
  rewrite Hin, Hget. simpl. now rewrite setattr_loop.
Qed.

(** *** The store invariant *)

Lemma store_inv_init : store_inv init_state.
Proof.
  split; simpl; try constructor. lia.
Qed.

Lemma fresh_absent st :
  store_inv st -> Py.contains (tasks_db st) (next_id st) = false.
Proof.
  intros Hinv. destruct (Py.contains (tasks_db st) (next_id st)) eqn:E;
    [|reflexivity].
  apply contains_keys in E.
  pose proof (inv_fresh _ Hinv) as Hf. rewrite Forall_forall in Hf.
  specialize (Hf _ E). lia.
Qed.

Lemma store_inv_create task_data st :
  store_inv st -> store_inv (snd (create_task clock task_data st)).
Proof.
  intros Hinv. rewrite create_task_eq. simpl.
  destruct Hinv as [Hwf Hids Hfresh Hseed]. split; simpl.
  - now apply wf_setitem.
  - apply Forall_setitem; [assumption | reflexivity].
  - apply Forall_forall. intros k Hk. unfold Py.keys in Hk.
    apply in_map_iff in Hk. destruct Hk as [e [<- He]].
    apply In_setitem in He. destruct He as [->|He]; simpl; [lia|].
    rewrite Forall_forall in Hfresh.
    assert (fst e < next_id st) by (apply Hfresh; now apply in_map). lia.
  - lia.
Qed.

Lemma store_inv_update task_id u st :
  store_inv st -> store_inv (snd (update_task clock task_id u st)).
Proof.
  intros Hinv. destruct (Py.getitem (tasks_db st) task_id) as [task|] eqn:Hget.
  - rewrite (update_task_present _ _ _ _ Hget). simpl.
    assert (Hin : Py.contains (tasks_db st) task_id = true)
      by (apply getitem_contains; eauto).
    destruct Hinv as [Hwf Hids Hfresh Hseed]. split; simpl.
    + now apply wf_setitem.
    + apply Forall_setitem; [assumption|]. simpl.
      apply getitem_In in Hget. rewrite Forall_forall in Hids.
      exact (Hids _ Hget).
    + now rewrite keys_setitem_present.
    + assumption.
  - apply getitem_absent in Hget. now rewrite update_task_absent.
Qed.

Lemma store_inv_delete task_id st :
  store_inv st -> store_inv (snd (delete_task task_id st)).
Proof.
  intros Hinv. unfold delete_task.
  destruct (Py.contains (tasks_db st) task_id); simpl; [|assumption].
  destruct Hinv as [Hwf Hids Hfresh Hseed]. split; simpl.
  - now apply wf_delitem.
  - apply Forall_forall. intros e He. apply In_delitem in He.
    rewrite Forall_forall in Hids. now apply Hids.
  - rewrite keys_delitem. apply Forall_forall. intros k Hk.
    apply filter_In in Hk. rewrite Forall_forall in Hfresh. now apply Hfresh.
  - assumption.
Qed.

Lemma store_inv_app req st :
  store_inv st -> store_inv (snd (app clock req st)).
Proof.
  intros Hinv. destruct req as [c|i|b|i b|i]; unfold app; try assumption.
  - destruct (TaskCreate.model_validate b) as [errs|task_data]; [assumption|].
    pose proof (store_inv_create task_data st Hinv) as H.
    destruct (create_task clock task_data st). exact H.
  - destruct (TaskUpdate.model_validate b) as [errs|u]; [assumption|].
    pose proof (store_inv_update i u st Hinv) as H.
    destruct (update_task clock i u st). exact H.
  - pose proof (store_inv_delete i st Hinv) as H.
    destruct (delete_task i st). exact H.
Qed.

Lemma reachable_store_inv st : reachable clock st -> store_inv st.
Proof.
  induction 1 as [|req st Hreach IH].
  - exact store_inv_init.
  - now apply store_inv_app.
Qed.

End HandlerFacts.

(** ** Sessions *)

Section SessionFacts.
Variable clock : nat -> Py.datetime.

Lemma reachable_serve reqs st :
  reachable clock st -> reachable clock (snd (serve clock reqs st)).
Proof.
  revert st. induction reqs as [|req reqs IH]; intros st Hst; simpl.
  - assumption.
  - pose proof (reachable_app clock req st Hst) as H1.
    destruct (app clock req st) as [resp st1]. simpl in H1.
    specialize (IH st1 H1).
    destruct (serve clock reqs st1) as [resps st2]. exact IH.
Qed.

(** One request either assigns the current counter and bumps it, or
    assigns nothing and leaves the counter alone. *)
Lemma app_counter req st :
  let (resp, st') := app clock req st in
  (created_id resp = [next_id st] /\ next_id st' = next_id st + 1) \/
  (created_id resp = [] /\ next_id st' = next_id st).
Proof.
  destruct req as [c|i|b|i b|i]; unfold app.
  - right. split; reflexivity.
  - right. split; [|reflexivity]. unfold get_task.
    destruct (negb _); [reflexivity|].
    destruct (Py.getitem _ _); reflexivity.
  - destruct (TaskCreate.model_validate b) as [errs|task_data].
    + right. split; reflexivity.
    + rewrite create_task_eq. left. split; reflexivity.
  - destruct (TaskUpdate.model_validate b) as [errs|u].
    + right. split; reflexivity.
    + unfold update_task.
      destruct (negb _); [right; split; reflexivity|].
      destruct (Py.getitem _ _); right; split; reflexivity.
  - unfold delete_task. destruct (negb _); right; split; reflexivity.
Qed.

Lemma serve_created_ids reqs st :
  let ids := created_ids (fst (serve clock reqs st)) in
  ids = count_from (next_id st) (List.length ids) /\
  next_id (snd (serve clock reqs st)) = next_id st + Z.of_nat (List.length ids).
Proof.
  revert st. induction reqs as [|req reqs IH]; intros st; simpl.
  - split; [reflexivity | lia].
  - pose proof (app_counter req st) as Hreq.
    destruct (app clock req st) as [resp st1].
    specialize (IH st1). simpl in IH.
    destruct (serve clock reqs st1) as [resps st2]. simpl in *.
    unfold created_ids in *. simpl.
    destruct IH as [IHids IHnext].
    destruct Hreq as [[Hid Hn]|[Hid Hn]]; rewrite Hid; simpl.
    + rewrite Hn in *. split; [now rewrite <- IHids | lia].
    + rewrite Hn in *. split; [exact IHids | exact IHnext].
Qed.

End SessionFacts.

Lemma count_from_lower first n k : In k (count_from first n) -> first <= k.
Proof.
  revert first. induction n as [|n IH]; intros first; simpl; [tauto|].
  intros [<-|H]; [lia|]. apply IH in H. lia.
Qed.

Lemma count_from_sorted first n : StronglySorted Z.lt (count_from first n).
Proof.
  revert first. induction n as [|n IH]; intros first; simpl; constructor.
  - apply IH.
  - apply Forall_forall. intros k Hk. apply count_from_lower in Hk. lia.
Qed.

Lemma count_from_NoDup first n : NoDup (count_from first n).
Proof.
  revert first. induction n as [|n IH]; intros first; simpl; constructor.
  - intros H. apply count_from_lower in H. lia.
  - apply IH.
Qed.

(** ** The claims *)

(** C2.  In every session that starts from the initial state, whatever
    requests are interleaved (Delete in particular), the ids returned by the
    successful Create calls are 1, 2, 3, ... in this order: they increase
    strictly, the first one is 1, and none is ever handed out twice. *)
Theorem created_ids_increase_from_1 (clock : nat -> Py.datetime)
    (reqs : list request) :
  let ids := created_ids (fst (serve clock reqs init_state)) in
  ids = count_from 1 (List.length ids) /\
  StronglySorted Z.lt ids /\
  NoDup ids.
Proof.
  intros ids.
  destruct (serve_created_ids clock reqs init_state) as [Hids _].
  fold ids in Hids. simpl in Hids.
  split; [exact Hids|]. rewrite Hids.
  split; [apply count_from_sorted | apply count_from_NoDup].
Qed.

Example str_of_int_999 : Py.str_of_int 999 = "999"%string.
Proof. reflexivity. Qed.

Example str_of_int_neg : Py.str_of_int (-12) = "-12"%string.
Proof. reflexivity. Qed.

Example get_task_999_detail :
  app ticking_clock (GET_task 999) init_state
  = (ErrorDetail 404 "Error: Task with the id 999 not found", init_state).
Proof. reflexivity. Qed.

(** C9.  Get answers 200 with the task stored under the id when the id is
    a key of the mapping, and 404 exactly when it is not; the detail of the
    404 contains the decimal rendering of the requested id.  The store is
    left as it was in both cases. *)
Theorem get_task_found_or_404 (clock : nat -> Py.datetime) (task_id : Z)
    (st : state) :
  match Py.getitem (tasks_db st) task_id with
  | Some task =>
      Py.contains (tasks_db st) task_id = true /\
      app clock (GET_task task_id) st = (TaskBody HTTP_200_OK task, st)
  | None =>
      Py.contains (tasks_db st) task_id = false /\
      exists detail,
        app clock (GET_task task_id) st
        = (ErrorDetail HTTP_404_NOT_FOUND detail, st) /\
        includes detail (Py.str_of_int task_id)
  end /\
  is_not_found (fst (app clock (GET_task task_id) st))
  = negb (Py.contains (tasks_db st) task_id).
Proof.
  unfold app, get_task.
  destruct (Py.getitem (tasks_db st) task_id) as [task|] eqn:Hget.
  - assert (Hin : Py.contains (tasks_db st) task_id = true)
      by (apply getitem_contains; eauto).
    rewrite Hin. simpl. repeat split; reflexivity.
  - apply getitem_absent in Hget. rewrite Hget. simpl.
    repeat split. eexists. split; [reflexivity|].
    exists "Error: Task with the id "%string, " not found"%string. reflexivity.
Qed.

(** C10.  In a reachable state the counter is above every key of the
    mapping; so the key under which Create stores the new task is not yet a
    key, the new entry goes after the existing ones, and every entry that
    was there is still there, unchanged. *)
Theorem next_id_above_keys (clock : nat -> Py.datetime) (st : state)
    (task_data : TaskCreate.t) :
  reachable clock st ->
  Forall (fun k => k < next_id st) (Py.keys (tasks_db st)) /\
  let (task, st') := create_task clock task_data st in
  Task.id task = next_id st /\
  Py.contains (tasks_db st) (Task.id task) = false /\
  tasks_db st' = tasks_db st ++ [(Task.id task, task)] /\
  forall k, Py.contains (tasks_db st) k = true ->
            Py.getitem (tasks_db st') k = Py.getitem (tasks_db st) k.
Proof.
  intros Hreach. apply reachable_store_inv in Hreach.
  split; [exact (inv_fresh _ Hreach)|].
  rewrite create_task_eq. cbv zeta. simpl.
  pose proof (fresh_absent st Hreach) as Hfresh.
  repeat split.
  - exact Hfresh.
  - now apply setitem_absent.
  - intros k Hk. apply getitem_setitem_other. congruence.
Qed.

(** Two tasks created, the second deleted: the third Create gets id 3. *)
Lemma next_id_above_keys_witness :
  let st := snd (serve ticking_clock
                   [POST_tasks {| body_title := Given "Task 1"%string;
                                  body_description := Unset;
                                  body_completed := Unset |};
                    POST_tasks {| body_title := Given "Task 2"%string;
                                  body_description := Unset;
                                  body_completed := Unset |};
                    DELETE_task 2]
                   init_state) in
  let task_data := {| TaskCreate.title := "Task 3"%string;
                      TaskCreate.description := None |} in
  reachable ticking_clock st /\
  Py.keys (tasks_db st) = [1] /\
  next_id st = 3 /\
  Py.keys (tasks_db (snd (create_task ticking_clock task_data st))) = [1; 3].
Proof.
  intros st task_data.
  assert (Hreach : reachable ticking_clock st)
    by (apply reachable_serve; constructor).
  pose proof (next_id_above_keys ticking_clock st task_data Hreach) as [_ H].
  destruct (create_task ticking_clock task_data st) as [task st'] eqn:E.
  destruct H as (Hid & _ & Hdb & _).
  repeat split; try assumption; try reflexivity.
  simpl. rewrite Hdb, Hid. reflexivity.
Defined.

(** C8.  Delete answers 404 exactly when the id is not a key.  Otherwise
    it answers 204 and removes the entry: a Get of the same id then answers
    404, the unfiltered List is the former one without the task (no listed
    task bears the id any more) and is shorter by exactly one.  The counter
    keeps its value in both cases. *)
Theorem delete_task_removes_entry (clock : nat -> Py.datetime) (task_id : Z)
    (st : state) :
  reachable clock st ->
  let resp := fst (app clock (DELETE_task task_id) st) in
  let st' := snd (app clock (DELETE_task task_id) st) in
  is_not_found resp = negb (Py.contains (tasks_db st) task_id) /\
  next_id st' = next_id st /\
  match Py.getitem (tasks_db st) task_id with
  | None => st' = st
  | Some task =>
      resp = NoContent HTTP_204_NO_CONTENT /\
      tasks_db st' = Py.delitem (tasks_db st) task_id /\
      Py.contains (tasks_db st') task_id = false /\
      is_not_found (fst (app clock (GET_task task_id) st')) = true /\
      ~ In task (get_tasks None st') /\
      (forall other, In other (get_tasks None st') <->
                     In other (get_tasks None st) /\ Task.id other <> task_id) /\
      S (List.length (get_tasks None st')) = List.length (get_tasks None st)
  end.
Proof.
  intros Hreach resp st'. apply reachable_store_inv in Hreach.
  destruct Hreach as [Hwf Hids Hfresh _]. rewrite Forall_forall in Hids.
  subst resp st'. unfold app, delete_task.
  destruct (Py.getitem (tasks_db st) task_id) as [task|] eqn:Hget.
  - assert (Hin : Py.contains (tasks_db st) task_id = true)
      by (apply getitem_contains; eauto).
    rewrite Hin. simpl.
    assert (Hgone : Py.contains (Py.delitem (tasks_db st) task_id) task_id = false)
      by (rewrite contains_delitem, Z.eqb_refl; reflexivity).
    assert (Hlisted : forall other,
               In other (Py.values (Py.delitem (tasks_db st) task_id)) <->
               In other (Py.values (tasks_db st)) /\ Task.id other <> task_id).
    { intros other. unfold Py.values. rewrite !in_map_iff. split.
      - intros [e [<- He]]. apply In_delitem in He. destruct He as [He Hne].
        split; [eauto|]. now rewrite (Hids _ He).
      - intros [[e [<- He]] Hne]. exists e. split; [reflexivity|].
        apply In_delitem. split; [assumption|]. now rewrite <- (Hids _ He). }
    do 4 (split; [reflexivity|]).
    split; [exact Hgone|].
    split; [unfold get_task; simpl; now rewrite Hgone|].
    split; [|split; [exact Hlisted|]].
    + intros Habs. apply Hlisted in Habs. destruct Habs as [_ Hne].
      apply Hne. exact (Hids _ (getitem_In _ _ _ Hget)).
    + unfold Py.values. rewrite !length_map. now apply length_delitem.
  - apply getitem_absent in Hget. rewrite Hget. simpl. repeat split.
Qed.

(** Three tasks created, the middle one deleted: 1 and 3 are listed, in
    this order. *)
Lemma delete_task_removes_entry_witness :
  let st := snd (serve ticking_clock
                   [POST_tasks {| body_title := Given "Task 1"%string;
                                  body_description := Unset;
                                  body_completed := Unset |};
                    POST_tasks {| body_title := Given "Task 2"%string;
                                  body_description := Unset;
                                  body_completed := Unset |};
                    POST_tasks {| body_title := Given "Task 3"%string;
                                  body_description := Unset;
                                  body_completed := Unset |}]
                   init_state) in
  let st' := snd (app ticking_clock (DELETE_task 2) st) in
  reachable ticking_clock st /\
  map Task.id (get_tasks None st) = [1; 2; 3] /\
  map Task.id (get_tasks None st') = [1; 3] /\
  is_not_found (fst (app ticking_clock (GET_task 2) st')) = true /\
  next_id st' = 4.
Proof.
  intros st st'.
  assert (Hreach : reachable ticking_clock st)
    by (apply reachable_serve; constructor).
  pose proof (delete_task_removes_entry ticking_clock 2 st Hreach)
    as (_ & Hnext & Hpresent).
  change (Py.getitem (tasks_db st) 2) with
    (Some {| Task.id := 2; Task.title := Some "Task 2"%string;
             Task.description := None; Task.completed := Some false;
             Task.created_at := 2; Task.updated_at := 3 |}) in Hpresent.
  destruct Hpresent as (_ & _ & _ & Hget & _).
  repeat split; try assumption; reflexivity.
Defined.

Lemma len_str_mul c n : Py.len (Py.str_mul c n) = Z.of_nat n.
Proof.
  unfold Py.len. f_equal. induction n as [|n IH]; simpl; congruence.
Qed.

(** C7.  Create answers 422, and leaves the store alone, when the title is
    the empty string, when the title has 201 characters or more, and when
    the description sent has 1001 characters or more; with a title of
    exactly 200 characters and a description of exactly 1000 characters it
    answers 201 with the new task. *)
Theorem create_task_length_limits (clock : nat -> Py.datetime) (st : state)
    (body : json_body) :
  let resp := fst (app clock (POST_tasks body) st) in
  let st' := snd (app clock (POST_tasks body) st) in
  (body_title body = Given EmptyString ->
   is_validation_error resp = true /\ st' = st) /\
  (forall s, body_title body = Given s -> 201 <= Py.len s ->
             is_validation_error resp = true /\ st' = st) /\
  (forall d, body_description body = Given d -> 1001 <= Py.len d ->
             is_validation_error resp = true /\ st' = st) /\
  (forall s d, body_title body = Given s -> body_description body = Given d ->
               Py.len s = 200 -> Py.len d = 1000 ->
               exists task,
                 resp = TaskBody HTTP_201_CREATED task /\
                 Task.title task = Some s /\
                 Task.description task = Some d /\
                 Py.getitem (tasks_db st') (Task.id task) = Some task).
Proof.
  intros resp st'. subst resp st'. unfold app.
  destruct (TaskCreate.model_validate body) as [errs|task_data] eqn:Hv.
  - simpl. repeat split.
    intros s d Hs Hd Hls Hld. exfalso.
    assert (Hok : TaskCreate.model_validate body
                  = inr {| TaskCreate.title := s;
                           TaskCreate.description := Some d |}).
    { apply TaskCreate_validate_inr. exists s. rewrite Hd.
      repeat split; try assumption; lia. }
    congruence.
  - apply TaskCreate_validate_inr in Hv.
    destruct Hv as (s0 & Hs0 & Hlen & Hdesc & ->).
    split; [|split; [|split]].
    + intros Hs. rewrite Hs in Hs0. injection Hs0 as <-.
      unfold Py.len in Hlen. simpl in Hlen. lia.
    + intros s Hs Hl. rewrite Hs in Hs0. injection Hs0 as <-. lia.
    + intros d Hd Hl. rewrite Hd in Hdesc. lia.
    + intros s d Hs Hd _ _. rewrite Hs in Hs0. injection Hs0 as <-.
      rewrite Hd. rewrite create_task_eq. cbv zeta. simpl.
      eexists. split; [reflexivity|]. simpl.
      repeat split. apply getitem_setitem.
Qed.

(** The four boundary requests, on the empty store. *)
Lemma create_task_length_limits_witness :
  let post title description :=
    fst (app ticking_clock
           (POST_tasks {| body_title := Given title;
                          body_description := description;
                          body_completed := Unset |})
           init_state) in
  is_validation_error (post EmptyString Unset) = true /\
  is_validation_error (post (Py.str_mul "x" 201) Unset) = true /\
  is_validation_error
    (post "Valid title"%string (Given (Py.str_mul "x" 1001))) = true /\
  exists task,
    post (Py.str_mul "t" 200) (Given (Py.str_mul "d" 1000))
    = TaskBody HTTP_201_CREATED task.
Proof.
  intros post. subst post. cbv beta.
  split; [|split; [|split]].
  - refine (proj1 (proj1 (create_task_length_limits ticking_clock init_state
                            _) _)).
    reflexivity.
  - refine (proj1 (proj1 (proj2 (create_task_length_limits ticking_clock
                                   init_state _)) _ _ _)).
    + reflexivity.
    + rewrite len_str_mul. lia.
  - refine (proj1 (proj1 (proj2 (proj2 (create_task_length_limits
                                          ticking_clock init_state _))) _ _ _)).
    + reflexivity.
    + rewrite len_str_mul. lia.
  - destruct (proj2 (proj2 (proj2 (create_task_length_limits ticking_clock
                                     init_state
                                     {| body_title := Given (Py.str_mul "t" 200);
                                        body_description :=
                                          Given (Py.str_mul "d" 1000);
                                        body_completed := Unset |})))
                _ _ eq_refl eq_refl (len_str_mul _ _) (len_str_mul _ _))
      as (task & Htask & _).
    exists task. exact Htask.
Defined.

(** C3, at a clock that ticks between two readings: the task that Create
    returns has [created_at] and [updated_at] apart. *)
Lemma create_task_timestamps_differ :
  exists task st',
    app ticking_clock
        (POST_tasks {| body_title := Given "Task"%string;
                       body_description := Unset;
                       body_completed := Unset |})
        init_state
    = (TaskBody HTTP_201_CREATED task, st') /\
    Task.created_at task <> Task.updated_at task.
Proof.
  do 2 eexists. split; [reflexivity|]. simpl. discriminate.
Qed.

(** C3, amended.  For every valid Create input, the task that Create
    returns carries the two clock readings that Create takes, the first as
    [created_at] and the next as [updated_at] (so the two are equal when the
    readings coincide), and a Get of the new id served right after answers
    with that same task. *)
Theorem create_then_get (clock : nat -> Py.datetime) (st : state)
    (body : json_body) (task_data : TaskCreate.t) :
  TaskCreate.model_validate body = inr task_data ->
  exists task st',
    app clock (POST_tasks body) st = (TaskBody HTTP_201_CREATED task, st') /\
    Task.created_at task = clock (clock_reads st) /\
    Task.updated_at task = clock (S (clock_reads st)) /\
    (clock (clock_reads st) = clock (S (clock_reads st)) ->
     Task.created_at task = Task.updated_at task) /\
    app clock (GET_task (Task.id task)) st' = (TaskBody HTTP_200_OK task, st').
Proof.
  intros Hv. unfold app at 1. rewrite Hv, create_task_eq. cbv zeta.
  do 2 eexists. split; [reflexivity|]. simpl.
  split; [reflexivity|]. split; [reflexivity|]. split; [tauto|].
  unfold get_task. simpl.
  rewrite contains_setitem, Z.eqb_refl, getitem_setitem. reflexivity.
Qed.

(** With a clock that returns the same reading twice, the timestamps of
    the new task agree. *)
Lemma create_then_get_witness :
  let body := {| body_title := Given "Test Task"%string;
                 body_description := Given "Test Description"%string;
                 body_completed := Unset |} in
  exists task st',
    app frozen_clock (POST_tasks body) init_state
    = (TaskBody HTTP_201_CREATED task, st') /\
    Task.created_at task = Task.updated_at task /\
    app frozen_clock (GET_task 1) st' = (TaskBody HTTP_200_OK task, st').
Proof.
  intros body.
  destruct (create_then_get frozen_clock init_state body
              {| TaskCreate.title := "Test Task"%string;
                 TaskCreate.description := Some "Test Description"%string |}
              eq_refl)
    as (task & st' & Hpost & Hc & Hu & Heq & Hget).
  exists task, st'. split; [exact Hpost|]. split; [apply Heq; reflexivity|].
  replace 1 with (Task.id task); [exact Hget|].
  unfold app in Hpost. simpl in Hpost. injection Hpost as <- _. reflexivity.
Defined.


(** C4, at a clock too coarse to tell the creation from the update: the
    Update succeeds and [updated_at] keeps its value. *)
Lemma update_timestamp_can_stall :
  let st := snd (app frozen_clock
                   (POST_tasks {| body_title := Given "Task"%string;
                                  body_description := Unset;
                                  body_completed := Unset |})
                   init_state) in
  exists before after st',
    Py.getitem (tasks_db st) 1 = Some before /\
    app frozen_clock (PUT_task 1 empty_patch) st
    = (TaskBody HTTP_200_OK after, st') /\
    ~ Task.updated_at before < Task.updated_at after.
Proof.
  do 3 eexists. split; [reflexivity|]. split; [reflexivity|].
  cbn. unfold frozen_clock. lia.
Qed.

(** C4, amended.  For every id that is a key and every body that passes
    validation, Update answers 200 with the stored task in which exactly the
    fields that the body sets are overwritten with the value sent, and
    [updated_at] is the clock reading taken by the Update; the fields that
    the body does not set, [id] and [created_at] keep their value, and so do
    the other entries, the order of the keys and the counter.  With an empty
    body nothing but [updated_at] changes.  [updated_at] increases strictly
    when the clock reading is later than the previous [updated_at]. *)
Theorem update_task_frame (clock : nat -> Py.datetime) (task_id : Z)
    (body : json_body) (u : TaskUpdate.t) (task : Task.t) (st : state) :
  TaskUpdate.model_validate body = inr u ->
  Py.getitem (tasks_db st) task_id = Some task ->
  exists task' st',
    app clock (PUT_task task_id body) st = (TaskBody HTTP_200_OK task', st') /\
    Py.getitem (tasks_db st') task_id = Some task' /\
    Task.title task' = overwrite (body_title body) (Task.title task) /\
    Task.description task'
    = overwrite (body_description body) (Task.description task) /\
    Task.completed task'
    = overwrite (body_completed body) (Task.completed task) /\
    Task.id task' = Task.id task /\
    Task.created_at task' = Task.created_at task /\
    Task.updated_at task' = clock (clock_reads st) /\
    (body = empty_patch ->
     task' = Task.set_updated_at task (clock (clock_reads st))) /\
    (Task.updated_at task < clock (clock_reads st) ->
     Task.updated_at task < Task.updated_at task') /\
    (forall k, k <> task_id ->
               Py.getitem (tasks_db st') k = Py.getitem (tasks_db st) k) /\
    Py.keys (tasks_db st') = Py.keys (tasks_db st) /\
    next_id st' = next_id st.
Proof.
  intros Hv Hget. unfold app. rewrite Hv.
  pose proof (TaskUpdate_validate_spec body) as Hspec. rewrite Hv in Hspec.
  destruct Hspec as [_ ->].
  rewrite (update_task_present clock _ _ _ _ Hget). cbv zeta.
  do 2 eexists. split; [reflexivity|]. simpl.
  split; [apply getitem_setitem|].
  do 6 (split; [reflexivity|]).
  split; [intros ->; reflexivity|].
  split; [tauto|].
  split; [intros k Hk; now apply getitem_setitem_other|].
  split; [|reflexivity].
  apply keys_setitem_present. apply getitem_contains. eauto.
Qed.

(** A task created with a title and a description, then a new title alone
    is sent: the description stays. *)
Lemma update_task_frame_witness :
  let st := snd (app ticking_clock
                   (POST_tasks {| body_title := Given "Original"%string;
                                  body_description := Given "D"%string;
                                  body_completed := Unset |})
                   init_state) in
  let body := {| body_title := Given "Updated"%string;
                 body_description := Unset;
                 body_completed := Unset |} in
  exists task' st',
    app ticking_clock (PUT_task 1 body) st = (TaskBody HTTP_200_OK task', st') /\
    Task.title task' = Some "Updated"%string /\
    Task.description task' = Some "D"%string /\
    Task.completed task' = Some false /\
    Task.created_at task' = 0 /\
    1 < Task.updated_at task'.
Proof.
  intros st body.
  destruct (update_task_frame ticking_clock 1 body
              {| TaskUpdate.title := Given "Updated"%string;
                 TaskUpdate.description := Unset;
                 TaskUpdate.completed := Unset |}
              {| Task.id := 1; Task.title := Some "Original"%string;
                 Task.description := Some "D"%string;
                 Task.completed := Some false;
                 Task.created_at := 0; Task.updated_at := 1 |}
              st eq_refl eq_refl)
    as (task' & st' & Hput & _ & Ht & Hd & Hc & _ & Hcr & _ & _ & Hlt & _).
  exists task', st'. repeat split; try assumption.
  apply Hlt. simpl. unfold ticking_clock. simpl. lia.
Defined.

(** C6, on the empty store: the id 999 is not a key, the body carries an
    empty title, and the Update does not fail with NotFound: the body is
    rejected first. *)
Lemma update_absent_id_invalid_body :
  let body := {| body_title := Given EmptyString;
                 body_description := Unset;
                 body_completed := Unset |} in
  let resp := fst (app ticking_clock (PUT_task 999 body) init_state) in
  Py.contains (tasks_db init_state) 999 = false /\
  is_not_found resp = false /\
  is_validation_error resp = true.
Proof. repeat split. Qed.

(** Apart from a [null] title, Create and Update reject the same supplied
    fields. *)
Lemma violates_create_constraints_limits (b : json_body) :
  body_title b <> Null ->
  violates_create_constraints b = negb (strings_within_limits b).
Proof.
  unfold violates_create_constraints, strings_within_limits.
  unfold TaskCreate.title_errors, TaskCreate.description_errors, check_str, report.
  intros Hnull.
  destruct (body_title b) as [| |s], (body_description b) as [| |d];
    try congruence; simpl;
    repeat match goal with
           | |- context [?x <? ?y] => destruct (Z.ltb_spec x y); simpl
           | |- context [?x <=? ?y] => destruct (Z.leb_spec x y); simpl
           end;
    try reflexivity; lia.
Qed.

(** An Update accepts the [null] title that Create rejects. *)
Example update_accepts_null_title :
  let body := {| body_title := Null;
                 body_description := Unset;
                 body_completed := Unset |} in
  violates_create_constraints body = true /\
  is_validation_error (fst (app ticking_clock (PUT_task 1 body) init_state))
  = false.
Proof. split; reflexivity. Qed.

(** C6, amended.  For every id and every body whose title is not an
    explicit [null]: Update fails with ValidationError exactly when a field
    that the body supplies violates the constraints of Create (title of 1 to
    200 characters, description of at most 1000), whether the id is a key or
    not; it fails with NotFound exactly when the body passes and the id is
    not a key; a failure of either kind leaves the store as it was, the
    mapping and the counter in particular. *)
Theorem update_task_failures (clock : nat -> Py.datetime) (task_id : Z)
    (body : json_body) (st : state) :
  body_title body <> Null ->
  let resp := fst (app clock (PUT_task task_id body) st) in
  let st' := snd (app clock (PUT_task task_id body) st) in
  is_validation_error resp = violates_create_constraints body /\
  is_not_found resp
  = negb (violates_create_constraints body)
    && negb (Py.contains (tasks_db st) task_id) /\
  (is_validation_error resp = true \/ is_not_found resp = true ->
   st' = st /\ tasks_db st' = tasks_db st /\ next_id st' = next_id st).
Proof.
  intros Hnull resp st'. subst resp st'. unfold app.
  rewrite (violates_create_constraints_limits body Hnull).
  pose proof (TaskUpdate_validate_spec body) as Hspec.
  destruct (TaskUpdate.model_validate body) as [errs|u].
  - destruct Hspec as [-> _]. simpl. repeat split.
  - destruct Hspec as [-> _].
    destruct (Py.getitem (tasks_db st) task_id) as [task|] eqn:Hget.
    + rewrite (update_task_present clock _ _ _ _ Hget). cbv zeta.
      assert (Hin : Py.contains (tasks_db st) task_id = true)
        by (apply getitem_contains; eauto).
      rewrite Hin. simpl. do 2 (split; [reflexivity|]).
      intros [Hfail|Hfail]; discriminate.
    + apply getitem_absent in Hget. rewrite update_task_absent by assumption.
      rewrite Hget. simpl. repeat split.
Qed.

(** A title of 201 characters for an existing id, and an empty body for
    an id that is not a key. *)
Lemma update_task_failures_witness :
  let body := {| body_title := Given (Py.str_mul "x" 201);
                 body_description := Unset;
                 body_completed := Given true |} in
  let st := snd (app ticking_clock
                   (POST_tasks {| body_title := Given "Original"%string;
                                  body_description := Unset;
                                  body_completed := Unset |})
                   init_state) in
  is_validation_error (fst (app ticking_clock (PUT_task 1 body) st)) = true /\
  snd (app ticking_clock (PUT_task 1 body) st) = st /\
  is_not_found (fst (app ticking_clock (PUT_task 999 empty_patch) st)) = true.
Proof.
  intros body st.
  assert (Hbody : body_title body <> Null) by discriminate.
  assert (Hempty : body_title empty_patch <> Null) by discriminate.
  pose proof (update_task_failures ticking_clock 1 body st Hbody)
    as (Hv & _ & Hsame).
  pose proof (update_task_failures ticking_clock 999 empty_patch st Hempty)
    as (_ & Hnf & _).
  split; [exact Hv|]. split; [|exact Hnf].
  apply Hsame. left. exact Hv.
Defined.

(** ** The field limits of the stored tasks *)

Lemma In_values_setitem (d : Py.dict Task.t) k v task :
  In task (Py.values (Py.setitem d k v)) -> task = v \/ In task (Py.values d).
Proof.
  unfold Py.values. rewrite !in_map_iff. intros [e [<- He]].
  apply In_setitem in He. destruct He as [->|He]; [now left|].
  right. now exists e.
Qed.

Lemma In_values_getitem (d : Py.dict Task.t) k task :
  Py.getitem d k = Some task -> In task (Py.values d).
Proof.
  intros H. apply getitem_In in H. unfold Py.values.
  apply in_map_iff. now exists (k, task).
Qed.

Lemma fields_invariant_init : fields_invariant init_state.
Proof. intros task []. Qed.

(** Every request other than an Update that sends a [null] title keeps the
    stored titles and descriptions within their limits. *)
Lemma fields_invariant_app (clock : nat -> Py.datetime) req st :
  sets_title_null req = false ->
  fields_invariant st -> fields_invariant (snd (app clock req st)).
Proof.
  intros Hreq Hinv. destruct req as [c|i|b|i b|i]; unfold app; try assumption.
  - destruct (TaskCreate.model_validate b) as [errs|task_data] eqn:Hv;
      [assumption|].
    apply TaskCreate_validate_inr in Hv.
    destruct Hv as (s & Hs & Hlen & Hdesc & ->).
    rewrite create_task_eq. cbv zeta. simpl. intros task Htask. simpl in Htask.
    apply In_values_setitem in Htask. destruct Htask as [->|Htask];
      [|now apply Hinv].
    unfold task_fields_ok, title_ok, description_ok. simpl.
    apply andb_true_iff. split.
    + apply andb_true_iff. split; apply Z.leb_le; lia.
    + destruct (body_description b); try reflexivity. apply Z.leb_le. lia.
  - pose proof (TaskUpdate_validate_spec b) as Hspec.
    destruct (TaskUpdate.model_validate b) as [errs|u]; [assumption|].
    destruct Hspec as [Hlim ->].
    destruct (Py.getitem (tasks_db st) i) as [old|] eqn:Hget.
    + rewrite (update_task_present clock _ _ _ _ Hget). cbv zeta. simpl.
      intros task Htask. simpl in Htask.
      apply In_values_setitem in Htask. destruct Htask as [->|Htask];
        [|now apply Hinv].
      specialize (Hinv old (In_values_getitem _ _ _ Hget)).
      unfold task_fields_ok, title_ok, description_ok in *. simpl.
      unfold strings_within_limits in Hlim. simpl in Hreq.
      apply andb_true_iff in Hinv. destruct Hinv as [Ht Hd].
      apply andb_true_iff in Hlim. destruct Hlim as [Hlt Hld].
      apply andb_true_iff. split.
      * destruct (body_title b); simpl; [assumption | discriminate | assumption].
      * destruct (body_description b); simpl;
          [assumption | reflexivity | assumption].
    + apply getitem_absent in Hget. now rewrite update_task_absent.
  - unfold delete_task. destruct (negb _); simpl; [assumption|].
    intros task Htask. apply Hinv. unfold Py.values in *.
    apply in_map_iff in Htask. destruct Htask as [e [<- He]].
    apply In_delitem in He. apply in_map. tauto.
Qed.

(** C1.  The state reached by a Create followed by an Update whose body is
    [{"title": null}]: the stored task has no title at all, so the stored
    titles are not all strings of 1 to 200 characters. *)
Theorem null_title_is_stored :
  let st := snd (serve ticking_clock
                   [POST_tasks {| body_title := Given "Task"%string;
                                  body_description := Unset;
                                  body_completed := Unset |};
                    PUT_task 1 {| body_title := Null;
                                  body_description := Unset;
                                  body_completed := Unset |}]
                   init_state) in
  reachable ticking_clock st /\
  Py.values (tasks_db st)
  = [{| Task.id := 1; Task.title := None; Task.description := None;
        Task.completed := Some false;
        Task.created_at := 0; Task.updated_at := 2 |}] /\
  ~ fields_invariant st.
Proof.
  intros st. split; [apply reachable_serve; constructor|].
  split; [reflexivity|].
  intros Hinv.
  specialize (Hinv _ (or_introl eq_refl)). discriminate Hinv.
Qed.

(** ** Listing *)

Lemma filter_flags_permutation (tasks : list Task.t) :
  (forall task, In task tasks -> Task.completed task <> None) ->
  Permutation
    (filter (fun task => Task.completed_eq task true) tasks
     ++ filter (fun task => Task.completed_eq task false) tasks)
    tasks.
Proof.
  induction tasks as [|task tasks IH]; intros Hflags; simpl; [constructor|].
  assert (IH' := IH (fun t Ht => Hflags t (or_intror Ht))).
  assert (Hflag : forall flag,
             Task.completed_eq task flag
             = match Task.completed task with
               | Some b => Bool.eqb b flag
               | None => false
               end) by reflexivity.
  rewrite !Hflag.
  destruct (Task.completed task) as [[|]|] eqn:Hc; simpl.
  - now constructor.
  - apply Permutation_sym. apply Permutation_cons_app.
    apply Permutation_sym. exact IH'.
  - exfalso. apply (Hflags task); [now left | assumption].
Qed.

(** X16.  List answers for every store: without a filter, all the stored tasks
    in insertion order; with a filter, the stored tasks whose [completed] is
    that boolean, in the same order.  When every stored flag is a boolean,
    the two filtered answers share out the unfiltered one. *)
Lemma get_tasks_spec (clock : nat -> Py.datetime) (st : state) :
  app clock (GET_tasks None) st
  = (TaskList HTTP_200_OK (Py.values (tasks_db st)), st) /\
  (forall flag,
      app clock (GET_tasks (Some flag)) st
      = (TaskList HTTP_200_OK
           (filter (fun task => Task.completed_eq task flag)
                   (Py.values (tasks_db st))), st)) /\
  (forall flag task,
      In task (get_tasks (Some flag) st) <->
      In task (Py.values (tasks_db st)) /\ Task.completed task = Some flag) /\
  (forall task,
      ~ (In task (get_tasks (Some true) st) /\
         In task (get_tasks (Some false) st))) /\
  (flags_are_bool st ->
   Permutation (get_tasks (Some true) st ++ get_tasks (Some false) st)
               (get_tasks None st)).
Proof.
  assert (Hmem : forall flag task,
             In task (get_tasks (Some flag) st) <->
             In task (Py.values (tasks_db st)) /\
             Task.completed task = Some flag).
  { intros flag task. rewrite get_tasks_filter, filter_In.
    unfold Task.completed_eq.
    destruct (Task.completed task) as [b|]; [|intuition discriminate].
    destruct b, flag; simpl; intuition congruence. }
  split; [reflexivity|].
  split; [intros flag; unfold app; now rewrite get_tasks_filter|].
  split; [exact Hmem|].
  split.
  - intros task [H1 H2]. apply Hmem in H1, H2. destruct H1, H2. congruence.
  - intros Hflags. rewrite !get_tasks_filter.
    now apply filter_flags_permutation.
Qed.

(** C5.  The state reached by a Create followed by an Update whose body
    is [{"completed": null}]: the task is listed without a filter and by
    neither filter, so the two filtered lists do not share out the
    unfiltered one. *)
Theorem null_completed_escapes_filters :
  let st := snd (serve ticking_clock
                   [POST_tasks {| body_title := Given "Task"%string;
                                  body_description := Unset;
                                  body_completed := Unset |};
                    PUT_task 1 {| body_title := Unset;
                                  body_description := Unset;
                                  body_completed := Null |}]
                   init_state) in
  reachable ticking_clock st /\
  get_tasks None st
  = [{| Task.id := 1; Task.title := Some "Task"%string;
        Task.description := None; Task.completed := None;
        Task.created_at := 0; Task.updated_at := 2 |}] /\
  get_tasks (Some true) st = [] /\
  get_tasks (Some false) st = [] /\
  ~ Permutation (get_tasks (Some true) st ++ get_tasks (Some false) st)
                (get_tasks None st).
Proof.
  intros st. split; [apply reachable_serve; constructor|].
  do 3 (split; [reflexivity|]).
  intros Hperm. apply Permutation_length in Hperm. discriminate Hperm.
Qed.

(** * Further properties of the handlers *)

(** ** Status codes and failures *)

(** X1.  Each route answers with the status of its decorator or with the
    status of one of its failures, and with nothing else: the guarded dict
    accesses never raise, so no request is answered 500. *)
Theorem status_by_route (clock : nat -> Py.datetime) (req : request)
    (st : state) :
  match req with
  | GET_tasks _ => status_of (fst (app clock req st)) = 200
  | GET_task _ =>
      status_of (fst (app clock req st)) = 200 \/
      status_of (fst (app clock req st)) = 404
  | POST_tasks _ =>
      status_of (fst (app clock req st)) = 201 \/
      status_of (fst (app clock req st)) = 422
  | PUT_task _ _ =>
      status_of (fst (app clock req st)) = 200 \/
      status_of (fst (app clock req st)) = 404 \/
      status_of (fst (app clock req st)) = 422
  | DELETE_task _ =>
      status_of (fst (app clock req st)) = 204 \/
      status_of (fst (app clock req st)) = 404
  end.
Proof.
  destruct req as [c|i|b|i b|i]; unfold app.
  - reflexivity.
  - unfold get_task.
    destruct (Py.getitem (tasks_db st) i) as [task|] eqn:Hget.
    + assert (Hin : Py.contains (tasks_db st) i = true)
        by (apply getitem_contains; eauto).
      rewrite Hin. now left.
    + apply getitem_absent in Hget. rewrite Hget. now right.
  - destruct (TaskCreate.model_validate b); [now right|].
    rewrite create_task_eq. now left.
  - destruct (TaskUpdate.model_validate b); [now right; right|].
    destruct (Py.getitem (tasks_db st) i) as [task|] eqn:Hget.
    + rewrite (update_task_present clock _ _ _ _ Hget). now left.
    + apply getitem_absent in Hget. rewrite update_task_absent by assumption.
      right. now left.
  - unfold delete_task. destruct (Py.contains (tasks_db st) i);
      [now left | now right].
Qed.

(** X2.  A request that is answered with an error status, and a request
    that only reads, leave the whole state as it was: no handler changes the
    globals before it raises. *)
Theorem failure_leaves_state (clock : nat -> Py.datetime) (req : request)
    (st : state) :
  400 <= status_of (fst (app clock req st)) \/ is_read req = true ->
  snd (app clock req st) = st.
Proof.
  destruct req as [c|i|b|i b|i]; unfold app; try reflexivity.
  - destruct (TaskCreate.model_validate b); [reflexivity|].
    rewrite create_task_eq. cbv zeta. simpl. unfold HTTP_201_CREATED.
    intros [H|H]; [lia | discriminate].
  - destruct (TaskUpdate.model_validate b); [reflexivity|].
    destruct (Py.getitem (tasks_db st) i) as [task|] eqn:Hget.
    + rewrite (update_task_present clock _ _ _ _ Hget). cbv zeta. simpl.
      unfold HTTP_200_OK. intros [H|H]; [lia | discriminate].
    + apply getitem_absent in Hget. now rewrite update_task_absent.
  - unfold delete_task. destruct (Py.contains (tasks_db st) i); simpl.
    + unfold HTTP_204_NO_CONTENT. intros [H|H]; [lia | discriminate].
    + reflexivity.
Qed.

(** A Delete of an id that is not a key, after one task was created. *)
Lemma failure_leaves_state_witness :
  let st := snd (app ticking_clock
                   (POST_tasks {| body_title := Given "Task"%string;
                                  body_description := Unset;
                                  body_completed := Unset |})
                   init_state) in
  snd (app ticking_clock (DELETE_task 999) st) = st.
Proof.
  intros st. apply (failure_leaves_state ticking_clock (DELETE_task 999) st).
  left. vm_compute. discriminate.
Defined.

(** X3.  The only responses that carry a [detail] are the 404 of the three
    routes with an id in the path: the id is then not a key, and the detail
    is ["Task with the id <id> not found"], which [get_task] alone prefixes
    with ["Error: "]. *)
Theorem not_found_detail (clock : nat -> Py.datetime) (req : request)
    (st : state) (code : Z) (detail : string) :
  fst (app clock req st) = ErrorDetail code detail ->
  code = 404 /\
  exists task_id,
    request_id req = Some task_id /\
    Py.contains (tasks_db st) task_id = false /\
    detail
    = ((match req with GET_task _ => "Error: " | _ => "" end)
       ++ "Task with the id " ++ Py.str_of_int task_id ++ " not found")%string.
Proof.
  destruct req as [c|i|b|i b|i]; unfold app.
  - discriminate.
  - unfold get_task.
    destruct (Py.getitem (tasks_db st) i) as [task|] eqn:Hget.
    + assert (Hin : Py.contains (tasks_db st) i = true)
        by (apply getitem_contains; eauto).
      rewrite Hin. discriminate.
    + apply getitem_absent in Hget. rewrite Hget. simpl.
      intros H. injection H as <- <-. split; [reflexivity|].
      exists i. repeat split. exact Hget.
  - destruct (TaskCreate.model_validate b); [discriminate|].
    rewrite create_task_eq. discriminate.
  - destruct (TaskUpdate.model_validate b); [discriminate|].
    destruct (Py.getitem (tasks_db st) i) as [task|] eqn:Hget.
    + rewrite (update_task_present clock _ _ _ _ Hget). discriminate.
    + apply getitem_absent in Hget. rewrite update_task_absent by assumption.
      simpl. intros H. injection H as <- <-. split; [reflexivity|].
      exists i. repeat split. exact Hget.
  - unfold delete_task.
    destruct (Py.contains (tasks_db st) i) eqn:Hin; simpl; [discriminate|].
    intros H. injection H as <- <-. split; [reflexivity|].
    exists i. repeat split. exact Hin.
Qed.

(** The message of an Update of the id 7 on the empty store. *)
Lemma not_found_detail_witness :
  exists task_id,
    request_id (PUT_task 7 empty_patch) = Some task_id /\
    Py.contains (tasks_db init_state) task_id = false /\
    "Task with the id 7 not found"%string
    = ("" ++ "Task with the id " ++ Py.str_of_int task_id ++ " not found")%string.
Proof.
  exact (proj2 (not_found_detail ticking_clock (PUT_task 7 empty_patch)
                  init_state 404 "Task with the id 7 not found" eq_refl)).
Defined.

(** ** Validation of the bodies *)

(** X4.  A Create whose body has no title, or a [null] title, is answered
    422 with a diagnostic on the title ([missing], respectively
    [string_type]) and stores nothing. *)
Theorem create_task_requires_title (clock : nat -> Py.datetime)
    (body : json_body) (st : state) :
  body_title body = Unset \/ body_title body = Null ->
  exists errors,
    app clock (POST_tasks body) st
    = (ValidationError HTTP_422_UNPROCESSABLE errors, st) /\
    In (title_field,
        match body_title body with Unset => missing | _ => string_type end)
       errors.
Proof.
  intros Htitle. unfold app, TaskCreate.model_validate.
  destruct Htitle as [Ht|Ht]; rewrite Ht; simpl;
    (destruct (TaskCreate.description_errors (body_description body));
     eexists; (split; [reflexivity | now left])).
Qed.

(** The body [{"description": "No title"}]. *)
Lemma create_task_requires_title_witness :
  exists errors,
    app ticking_clock
        (POST_tasks {| body_title := Unset;
                       body_description := Given "No title"%string;
                       body_completed := Unset |})
        init_state
    = (ValidationError HTTP_422_UNPROCESSABLE errors, init_state) /\
    In (title_field, missing) errors.
Proof.
  exact (create_task_requires_title ticking_clock
           {| body_title := Unset;
              body_description := Given "No title"%string;
              body_completed := Unset |}
           init_state (or_introl eq_refl)).
Defined.


(** ** Ids and the order of the listing *)

Lemma sorted_snoc (l : list Z) (n : Z) :
  StronglySorted Z.lt l -> Forall (fun k => k < n) l ->
  StronglySorted Z.lt (l ++ [n]).
Proof.
  induction 1 as [|a l Hl IH Ha]; intros Hn; simpl.
  - repeat constructor.
  - inversion Hn as [|? ? Han Hln]; subst. constructor; [now apply IH|].
    apply Forall_app. split; [assumption | now constructor].
Qed.

Lemma sorted_map_filter {A} (f : A -> Z) (p : A -> bool) (l : list A) :
  StronglySorted Z.lt (map f l) -> StronglySorted Z.lt (map f (filter p l)).
Proof.
  induction l as [|a l IH]; simpl; intros Hs; [constructor|].
  inversion Hs as [|? ? Hl Ha]; subst.
  destruct (p a); simpl; [|now apply IH].
  constructor; [now apply IH|].
  rewrite Forall_forall in *. intros k Hk. apply Ha.
  apply in_map_iff in Hk. destruct Hk as [x [<- Hx]].
  apply filter_In in Hx. apply in_map. tauto.
Qed.

Lemma sorted_bounded_length (l : list Z) (lo hi : Z) :
  lo <= hi -> StronglySorted Z.lt l -> Forall (fun k => lo <= k < hi) l ->
  Z.of_nat (List.length l) <= hi - lo.
Proof.
  intros Hle Hs. revert lo Hle. induction Hs as [|a l Hl IH Ha]; intros lo Hle Hb.
  - simpl. lia.
  - inversion Hb as [|? ? Hab Hlb]; subst.
    assert (Htail : Z.of_nat (List.length l) <= hi - (a + 1)).
    { apply IH; [lia|]. rewrite Forall_forall in *. intros k Hk.
      specialize (Ha k Hk). specialize (Hlb k Hk). lia. }
    simpl List.length. lia.
Qed.

Lemma ids_are_keys (d : Py.dict Task.t) :
  Forall (fun e => Task.id (snd e) = fst e) d ->
  map Task.id (Py.values d) = Py.keys d.
Proof.
  unfold Py.values, Py.keys. induction 1 as [|e d He Hd IH]; simpl;
    [reflexivity|]. now rewrite He, IH.
Qed.

Lemma keys_ascending_app (clock : nat -> Py.datetime) req st :
  store_inv st -> keys_ascending st -> keys_ascending (snd (app clock req st)).
Proof.
  intros Hinv [Hsorted Hpos].
  destruct req as [c|i|b|i b|i]; unfold app; try (split; assumption).
  - destruct (TaskCreate.model_validate b); [split; assumption|].
    rewrite create_task_eq. cbv zeta. unfold keys_ascending. simpl.
    rewrite setitem_absent by now apply fresh_absent.
    unfold Py.keys in *. rewrite map_app. simpl. split.
    + apply sorted_snoc; [assumption | exact (inv_fresh _ Hinv)].
    + apply Forall_app. split; [assumption|].
      constructor; [exact (inv_seed _ Hinv) | constructor].
  - destruct (TaskUpdate.model_validate b); [split; assumption|].
    destruct (Py.getitem (tasks_db st) i) as [task|] eqn:Hget.
    + rewrite (update_task_present clock _ _ _ _ Hget). cbv zeta.
      unfold keys_ascending. simpl.
      rewrite keys_setitem_present by (apply getitem_contains; eauto).
      split; assumption.
    + apply getitem_absent in Hget. rewrite update_task_absent by assumption.
      split; assumption.
  - unfold delete_task. destruct (Py.contains (tasks_db st) i); simpl;
      [|split; assumption].
    unfold keys_ascending. simpl. rewrite keys_delitem. split.
    + rewrite <- (map_id (filter _ _)). apply sorted_map_filter.
      now rewrite map_id.
    + rewrite Forall_forall in *. intros k Hk. apply filter_In in Hk.
      now apply Hpos.
Qed.

Lemma reachable_keys_ascending (clock : nat -> Py.datetime) st :
  reachable clock st -> keys_ascending st.
Proof.
  induction 1 as [|req st Hreach IH].
  - split; constructor.
  - apply keys_ascending_app; [now apply (reachable_store_inv clock) | assumption].
Qed.

(** X6.  In every reachable state List answers with the tasks in strictly
    increasing order of their ids, with or without a filter: the insertion
    order of the mapping is the order of creation, an Update keeps the place
    of its task and a Delete the order of the others. *)
Theorem list_sorted_by_id (clock : nat -> Py.datetime) (st : state)
    (completed : option bool) :
  reachable clock st ->
  StronglySorted Z.lt (map Task.id (get_tasks completed st)).
Proof.
  intros Hreach.
  pose proof (reachable_store_inv clock st Hreach) as Hinv.
  destruct (reachable_keys_ascending clock st Hreach) as [Hsorted _].
  rewrite <- (ids_are_keys _ (inv_ids _ Hinv)) in Hsorted.
  destruct completed as [flag|]; [|exact Hsorted].
  rewrite get_tasks_filter. now apply sorted_map_filter.
Qed.

(** Three tasks created, the second completed, the first deleted. *)
Lemma list_sorted_by_id_witness :
  let st := snd (serve ticking_clock
                   [POST_tasks {| body_title := Given "Task 1"%string;
                                  body_description := Unset;
                                  body_completed := Unset |};
                    POST_tasks {| body_title := Given "Task 2"%string;
                                  body_description := Unset;
                                  body_completed := Unset |};
                    POST_tasks {| body_title := Given "Task 3"%string;
                                  body_description := Unset;
                                  body_completed := Unset |};
                    PUT_task 2 {| body_title := Unset;
                                  body_description := Unset;
                                  body_completed := Given true |};
                    DELETE_task 1]
                   init_state) in
  map Task.id (get_tasks None st) = [2; 3] /\
  StronglySorted Z.lt (map Task.id (get_tasks None st)).
Proof.
  intros st. split; [reflexivity|].
  apply (list_sorted_by_id ticking_clock st None).
  apply reachable_serve. constructor.
Defined.

(** X7.  In every reachable state a task stored under a key bears that
    key as its id, the id is at least 1 and below the counter, and the
    number of stored tasks is at most the number of ids handed out so far,
    [next_id - 1]. *)
Theorem stored_ids_in_range (clock : nat -> Py.datetime) (st : state) :
  reachable clock st ->
  (forall k task, Py.getitem (tasks_db st) k = Some task ->
                  Task.id task = k /\ 1 <= k < next_id st) /\
  Z.of_nat (List.length (get_tasks None st)) <= next_id st - 1.
Proof.
  intros Hreach.
  pose proof (reachable_store_inv clock st Hreach) as Hinv.
  destruct (reachable_keys_ascending clock st Hreach) as [Hsorted Hpos].
  pose proof (inv_fresh _ Hinv) as Hfresh.
  pose proof (inv_ids _ Hinv) as Hids.
  rewrite Forall_forall in Hpos, Hfresh, Hids.
  split.
  - intros k task Hget. apply getitem_In in Hget.
    split; [exact (Hids _ Hget)|].
    assert (Hk : In k (Py.keys (tasks_db st)))
      by (unfold Py.keys; apply in_map_iff; now exists (k, task)).
    split; [now apply Hpos | now apply Hfresh].
  - simpl. unfold Py.values. rewrite length_map.
    rewrite <- (length_map fst). fold (Py.keys (tasks_db st)).
    apply sorted_bounded_length; [exact (inv_seed _ Hinv) | exact Hsorted |].
    apply Forall_forall. intros k Hk.
    split; [now apply Hpos | now apply Hfresh].
Qed.

(** Two tasks created and one deleted: one task is left, two ids are
    spent. *)
Lemma stored_ids_in_range_witness :
  let st := snd (serve ticking_clock
                   [POST_tasks {| body_title := Given "Task 1"%string;
                                  body_description := Unset;
                                  body_completed := Unset |};
                    POST_tasks {| body_title := Given "Task 2"%string;
                                  body_description := Unset;
                                  body_completed := Unset |};
                    DELETE_task 1]
                   init_state) in
  next_id st = 3 /\
  Z.of_nat (List.length (get_tasks None st)) <= next_id st - 1.
Proof.
  intros st. split; [reflexivity|].
  apply (stored_ids_in_range ticking_clock st).
  apply reachable_serve. constructor.
Defined.

(** ** Timestamps *)

Lemma stamped_later (clock : nat -> Py.datetime) (task : Task.t) (n m : nat) :
  (n <= m)%nat ->
  (exists i j, (i <= j < n)%nat /\
               Task.created_at task = clock i /\ Task.updated_at task = clock j) ->
  exists i j, (i <= j < m)%nat /\
              Task.created_at task = clock i /\ Task.updated_at task = clock j.
Proof.
  intros Hnm (i & j & Hij & Hc & Hu). exists i, j. repeat split; try tauto; lia.
Qed.

Lemma stamped_app (clock : nat -> Py.datetime) req st :
  stamped clock st -> stamped clock (snd (app clock req st)).
Proof.
  intros Hst. destruct req as [c|i|b|i b|i]; unfold app; try assumption.
  - destruct (TaskCreate.model_validate b); [assumption|].
    rewrite create_task_eq. cbv zeta. intros task Htask. simpl in *.
    apply In_values_setitem in Htask. destruct Htask as [->|Htask].
    + exists (clock_reads st), (S (clock_reads st)). simpl.
      repeat split; lia.
    + apply (stamped_later clock task (clock_reads st)); [lia|].
      now apply Hst.
  - destruct (TaskUpdate.model_validate b); [assumption|].
    destruct (Py.getitem (tasks_db st) i) as [old|] eqn:Hget.
    + rewrite (update_task_present clock _ _ _ _ Hget). cbv zeta.
      intros task Htask. simpl in *.
      apply In_values_setitem in Htask. destruct Htask as [->|Htask].
      * destruct (Hst old (In_values_getitem _ _ _ Hget))
          as (i0 & j0 & Hij & Hc & _).
        exists i0, (clock_reads st). simpl. repeat split; try assumption; lia.
      * apply (stamped_later clock task (clock_reads st)); [lia|].
        now apply Hst.
    + apply getitem_absent in Hget. now rewrite update_task_absent.
  - unfold delete_task. destruct (Py.contains (tasks_db st) i); simpl;
      [|assumption].
    intros task Htask. simpl in *. apply Hst. unfold Py.values in *.
    apply in_map_iff in Htask. destruct Htask as [e [<- He]].
    apply In_delitem in He. apply in_map. tauto.
Qed.

Lemma reachable_stamped (clock : nat -> Py.datetime) st :
  reachable clock st -> stamped clock st.
Proof.
  induction 1 as [|req st Hreach IH].
  - intros task [].
  - now apply stamped_app.
Qed.

(** X8.  When the clock never goes back, every task listed in a reachable
    state has [created_at <= updated_at]: [created_at] is the reading taken
    first by the Create and is never assigned again, [updated_at] is a later
    reading, taken by the Create or by the last Update. *)
Theorem created_before_updated (clock : nat -> Py.datetime) (st : state)
    (task : Task.t) :
  monotone clock ->
  reachable clock st ->
  In task (get_tasks None st) ->
  Task.created_at task <= Task.updated_at task.
Proof.
  intros Hmono Hreach Htask.
  destruct (reachable_stamped clock st Hreach task Htask)
    as (i & j & Hij & -> & ->).
  apply Hmono. lia.
Qed.

(** A task created and then updated under the ticking clock. *)
Lemma created_before_updated_witness :
  let st := snd (serve ticking_clock
                   [POST_tasks {| body_title := Given "Task"%string;
                                  body_description := Unset;
                                  body_completed := Unset |};
                    PUT_task 1 {| body_title := Unset;
                                  body_description := Unset;
                                  body_completed := Given true |}]
                   init_state) in
  let task := {| Task.id := 1; Task.title := Some "Task"%string;
                 Task.description := None; Task.completed := Some true;
                 Task.created_at := 0; Task.updated_at := 2 |} in
  get_tasks None st = [task] /\
  Task.created_at task <= Task.updated_at task.
Proof.
  intros st task. split; [reflexivity|].
  apply (created_before_updated ticking_clock st task).
  - intros i j Hij. unfold ticking_clock. lia.
  - apply reachable_serve. constructor.
  - left. reflexivity.
Defined.

(** ** Sessions *)

Lemma fields_invariant_serve (clock : nat -> Py.datetime) reqs st :
  Forall (fun req => sets_title_null req = false) reqs ->
  fields_invariant st -> fields_invariant (snd (serve clock reqs st)).
Proof.
  intros Hreqs. revert st. induction Hreqs as [|req reqs Hreq _ IH];
    intros st Hinv; simpl; [assumption|].
  pose proof (fields_invariant_app clock req st Hreq Hinv) as H1.
  destruct (app clock req st) as [resp st1]. simpl in H1.
  specialize (IH st1 H1).
  destruct (serve clock reqs st1) as [resps st2]. exact IH.
Qed.

(** X9.  After a session in which no Update sends a [null] title, every
    task listed has a title of 1 to 200 characters and, when it has a
    description, one of at most 1000 characters: what Create and Update
    store has passed the limits of the models, and nothing else writes
    these fields. *)
Theorem limits_hold_without_null_title (clock : nat -> Py.datetime)
    (reqs : list request) (task : Task.t) :
  Forall (fun req => sets_title_null req = false) reqs ->
  In task (get_tasks None (snd (serve clock reqs init_state))) ->
  (exists s, Task.title task = Some s /\ 1 <= Py.len s <= 200) /\
  (forall d, Task.description task = Some d -> Py.len d <= 1000).
Proof.
  intros Hreqs Htask.
  pose proof (fields_invariant_serve clock reqs init_state Hreqs
                fields_invariant_init task Htask) as Hok.
  unfold task_fields_ok, title_ok, description_ok in Hok.
  apply andb_true_iff in Hok. destruct Hok as [Ht Hd]. split.
  - destruct (Task.title task) as [s|]; [|discriminate].
    exists s. split; [reflexivity|].
    apply andb_true_iff in Ht. destruct Ht as [H1 H2].
    apply Z.leb_le in H1, H2. lia.
  - intros d Hdesc. rewrite Hdesc in Hd. now apply Z.leb_le.
Qed.

(** A session that clears a description with [null] and renames the task. *)
Lemma limits_hold_without_null_title_witness :
  let reqs := [POST_tasks {| body_title := Given "Original"%string;
                             body_description := Given "D"%string;
                             body_completed := Unset |};
               PUT_task 1 {| body_title := Given "Updated"%string;
                             body_description := Null;
                             body_completed := Unset |}] in
  let task := {| Task.id := 1; Task.title := Some "Updated"%string;
                 Task.description := None; Task.completed := Some false;
                 Task.created_at := 0; Task.updated_at := 2 |} in
  exists s, Task.title task = Some s /\ 1 <= Py.len s <= 200.
Proof.
  intros reqs task.
  refine (proj1 (limits_hold_without_null_title ticking_clock reqs task _ _)).
  - repeat constructor.
  - left. reflexivity.
Defined.

Lemma absent_stays_absent_app (clock : nat -> Py.datetime) req st k :
  k < next_id st -> Py.contains (tasks_db st) k = false ->
  let st' := snd (app clock req st) in
  k < next_id st' /\ Py.contains (tasks_db st') k = false.
Proof.
  intros Hk Habs st'. subst st'.
  destruct req as [c|i|b|i b|i]; unfold app; try (split; assumption).
  - destruct (TaskCreate.model_validate b); [split; assumption|].
    rewrite create_task_eq. cbv zeta. simpl. split; [lia|].
    rewrite contains_setitem, Habs.
    destruct (Z.eqb_spec (next_id st) k); [lia | reflexivity].
  - destruct (TaskUpdate.model_validate b); [split; assumption|].
    destruct (Py.getitem (tasks_db st) i) as [task|] eqn:Hget.
    + rewrite (update_task_present clock _ _ _ _ Hget). cbv zeta. simpl.
      split; [assumption|]. rewrite contains_setitem, Habs.
      destruct (Z.eqb_spec i k) as [->|]; [|reflexivity].
      apply getitem_absent in Habs. congruence.
    + apply getitem_absent in Hget. rewrite update_task_absent by assumption.
      split; assumption.
  - unfold delete_task. destruct (Py.contains (tasks_db st) i); simpl;
      [|split; assumption].
    split; [assumption|]. rewrite contains_delitem, Habs.
    apply andb_false_r.
Qed.

Lemma absent_stays_absent_serve (clock : nat -> Py.datetime) reqs st k :
  k < next_id st -> Py.contains (tasks_db st) k = false ->
  Py.contains (tasks_db (snd (serve clock reqs st))) k = false.
Proof.
  revert st. induction reqs as [|req reqs IH]; intros st Hk Habs; simpl;
    [assumption|].
  pose proof (absent_stays_absent_app clock req st k Hk Habs) as H1.
  destruct (app clock req st) as [resp st1]. simpl in H1.
  destruct H1 as [Hk1 Habs1]. specialize (IH st1 Hk1 Habs1).
  destruct (serve clock reqs st1) as [resps st2]. exact IH.
Qed.

Lemma snd_serve_cons (clock : nat -> Py.datetime) req reqs st :
  snd (serve clock (req :: reqs) st)
  = snd (serve clock reqs (snd (app clock req st))).
Proof.
  simpl. destruct (app clock req st) as [resp st1]. simpl.
  now destruct (serve clock reqs st1).
Qed.

(** X10.  Once a task of a reachable state is deleted, its id is gone for
    good: whatever requests follow, the id is not a key again and a Get of it
    is answered 404. *)
Theorem deleted_id_never_returns (clock : nat -> Py.datetime) (st : state)
    (task_id : Z) (reqs : list request) :
  reachable clock st ->
  Py.contains (tasks_db st) task_id = true ->
  let st' := snd (serve clock (DELETE_task task_id :: reqs) st) in
  Py.contains (tasks_db st') task_id = false /\
  is_not_found (fst (app clock (GET_task task_id) st')) = true.
Proof.
  intros Hreach Hin st'.
  assert (Hgone : Py.contains (tasks_db st') task_id = false).
  { subst st'. rewrite snd_serve_cons.
    apply absent_stays_absent_serve; unfold app, delete_task; rewrite Hin;
      simpl.
    - pose proof (inv_fresh _ (reachable_store_inv clock st Hreach)) as Hf.
      rewrite Forall_forall in Hf. apply Hf. now apply contains_keys.
    - rewrite contains_delitem, Z.eqb_refl. reflexivity. }
  split; [exact Hgone|].
  unfold app, get_task. now rewrite Hgone.
Qed.

(** Task 1 is deleted, and two more tasks are created afterwards. *)
Lemma deleted_id_never_returns_witness :
  let st := snd (app ticking_clock
                   (POST_tasks {| body_title := Given "Task 1"%string;
                                  body_description := Unset;
                                  body_completed := Unset |})
                   init_state) in
  let reqs := [POST_tasks {| body_title := Given "Task 2"%string;
                             body_description := Unset;
                             body_completed := Unset |};
               POST_tasks {| body_title := Given "Task 3"%string;
                             body_description := Unset;
                             body_completed := Unset |}] in
  let st' := snd (serve ticking_clock (DELETE_task 1 :: reqs) st) in
  Py.keys (tasks_db st') = [2; 3] /\
  is_not_found (fst (app ticking_clock (GET_task 1) st')) = true.
Proof.
  intros st reqs st'. split; [reflexivity|].
  refine (proj2 (deleted_id_never_returns ticking_clock st 1 reqs _ _)).
  - apply (reachable_app ticking_clock _ init_state). constructor.
  - reflexivity.
Defined.

(** ** How the operations compose *)

Lemma values_setitem_replace (d : Py.dict Task.t) k v :
  Py.wf d -> Forall (fun e => Task.id (snd e) = fst e) d ->
  Py.contains d k = true ->
  Py.values (Py.setitem d k v) = replace_task k v (Py.values d).
Proof.
  unfold Py.wf, Py.values, Py.keys, replace_task.
  induction d as [|e d IH]; simpl; [discriminate|].
  intros Hwf Hids Hin.
  inversion Hwf as [|? ? Hnotin Hwf']; subst.
  inversion Hids as [|? ? He Hd]; subst.
  rewrite He. destruct (Z.eqb_spec (fst e) k) as [E|E]; simpl.
  - f_equal. rewrite map_map. apply map_ext_in. intros e' He'.
    rewrite Forall_forall in Hd. rewrite (Hd _ He').
    destruct (Z.eqb_spec (fst e') k) as [E'|]; [|reflexivity].
    exfalso. apply Hnotin. rewrite E, <- E'. now apply in_map.
  - f_equal. now apply IH.
Qed.

(** X11.  A successful Update in a reachable state keeps the task at its
    place: the unfiltered List is the former one with the updated task in
    the place of the old one, and a Get of the id served next answers with
    the task the Update answered with. *)
Theorem update_keeps_place (clock : nat -> Py.datetime) (st : state)
    (task_id : Z) (body : json_body) (u : TaskUpdate.t) (task : Task.t) :
  reachable clock st ->
  TaskUpdate.model_validate body = inr u ->
  Py.getitem (tasks_db st) task_id = Some task ->
  exists task' st',
    app clock (PUT_task task_id body) st = (TaskBody HTTP_200_OK task', st') /\
    app clock (GET_task task_id) st' = (TaskBody HTTP_200_OK task', st') /\
    get_tasks None st' = replace_task task_id task' (get_tasks None st) /\
    List.length (get_tasks None st') = List.length (get_tasks None st).
Proof.
  intros Hreach Hv Hget. apply reachable_store_inv in Hreach.
  assert (Hin : Py.contains (tasks_db st) task_id = true)
    by (apply getitem_contains; eauto).
  unfold app at 1. rewrite Hv, (update_task_present clock _ _ _ _ Hget).
  cbv zeta. do 2 eexists. split; [reflexivity|]. simpl.
  split; [|split].
  - unfold get_task. simpl.
    rewrite contains_setitem, Z.eqb_refl, getitem_setitem. reflexivity.
  - apply values_setitem_replace;
      [exact (inv_wf _ Hreach) | exact (inv_ids _ Hreach) | exact Hin].
  - rewrite values_setitem_replace;
      [|exact (inv_wf _ Hreach) | exact (inv_ids _ Hreach) | exact Hin].
    unfold replace_task. apply length_map.
Qed.

(** Three tasks, the middle one completed: it stays in the middle. *)
Lemma update_keeps_place_witness :
  let st := snd (serve ticking_clock
                   [POST_tasks {| body_title := Given "Task 1"%string;
                                  body_description := Unset;
                                  body_completed := Unset |};
                    POST_tasks {| body_title := Given "Task 2"%string;
                                  body_description := Unset;
                                  body_completed := Unset |};
                    POST_tasks {| body_title := Given "Task 3"%string;
                                  body_description := Unset;
                                  body_completed := Unset |}]
                   init_state) in
  let body := {| body_title := Unset; body_description := Unset;
                 body_completed := Given true |} in
  exists task' st',
    app ticking_clock (PUT_task 2 body) st = (TaskBody HTTP_200_OK task', st') /\
    map Task.id (get_tasks None st') = [1; 2; 3] /\
    map Task.completed (get_tasks None st')
    = [Some false; Some true; Some false].
Proof.
  intros st body.
  destruct (update_keeps_place ticking_clock st 2 body
              {| TaskUpdate.title := Unset; TaskUpdate.description := Unset;
                 TaskUpdate.completed := Given true |}
              {| Task.id := 2; Task.title := Some "Task 2"%string;
                 Task.description := None; Task.completed := Some false;
                 Task.created_at := 2; Task.updated_at := 3 |})
    as (task' & st' & Hput & _ & Hlist & _).
  - apply reachable_serve. constructor.
  - reflexivity.
  - reflexivity.
  - exists task', st'. split; [exact Hput|].
    rewrite Hlist. unfold app in Hput. simpl in Hput.
    injection Hput as <- _. split; reflexivity.
Defined.

Lemma overwrite_twice {A} (x : supplied A) (old : option A) :
  overwrite x (overwrite x old) = overwrite x old.
Proof. now destruct x. Qed.

(** X12.  Two Updates of one task in a row merge: for each field the
    later body wins where it sets the field, else the earlier one, else the
    stored value; [created_at] is kept and [updated_at] is the reading of the
    second Update.  Sending the same body twice changes no field but
    [updated_at] the second time. *)
Theorem update_twice_merges (clock : nat -> Py.datetime) (st : state)
    (task_id : Z) (b1 b2 : json_body) (u1 u2 : TaskUpdate.t) (task : Task.t) :
  TaskUpdate.model_validate b1 = inr u1 ->
  TaskUpdate.model_validate b2 = inr u2 ->
  Py.getitem (tasks_db st) task_id = Some task ->
  exists t1 t2 st2,
    serve clock [PUT_task task_id b1; PUT_task task_id b2] st
    = ([TaskBody HTTP_200_OK t1; TaskBody HTTP_200_OK t2], st2) /\
    Task.title t2
    = overwrite (body_title b2) (overwrite (body_title b1) (Task.title task)) /\
    Task.description t2
    = overwrite (body_description b2)
        (overwrite (body_description b1) (Task.description task)) /\
    Task.completed t2
    = overwrite (body_completed b2)
        (overwrite (body_completed b1) (Task.completed task)) /\
    Task.id t2 = Task.id task /\
    Task.created_at t2 = Task.created_at task /\
    Task.updated_at t2 = clock (S (clock_reads st)) /\
    (b2 = b1 -> t2 = Task.set_updated_at t1 (clock (S (clock_reads st)))).
Proof.
  intros Hv1 Hv2 Hget.
  pose proof (TaskUpdate_validate_spec b1) as Hs1. rewrite Hv1 in Hs1.
  pose proof (TaskUpdate_validate_spec b2) as Hs2. rewrite Hv2 in Hs2.
  destruct Hs1 as [_ ->], Hs2 as [_ ->].
  unfold serve, app. rewrite Hv1, Hv2.
  rewrite (update_task_present clock _ _ _ _ Hget). cbv beta iota zeta.
  match goal with
  | |- context [update_task clock task_id ?u ?s] =>
      rewrite (update_task_present clock task_id u s
                 (patched task
                    {| TaskUpdate.title := body_title b1;
                       TaskUpdate.description := body_description b1;
                       TaskUpdate.completed := body_completed b1 |}
                    (clock (clock_reads st))))
        by (simpl; apply getitem_setitem)
  end.
  cbv zeta. do 3 eexists. split; [reflexivity|]. simpl.
  do 6 (split; [reflexivity|]).
  intros ->. unfold patched, Task.set_updated_at. simpl.
  now rewrite !overwrite_twice.
Qed.

(** A new title, then a completion flag: both are in the result. *)
Lemma update_twice_merges_witness :
  let st := snd (app ticking_clock
                   (POST_tasks {| body_title := Given "Original"%string;
                                  body_description := Unset;
                                  body_completed := Unset |})
                   init_state) in
  let b1 := {| body_title := Given "Updated"%string;
               body_description := Unset; body_completed := Unset |} in
  let b2 := {| body_title := Unset; body_description := Unset;
               body_completed := Given true |} in
  exists t1 t2 st2,
    serve ticking_clock [PUT_task 1 b1; PUT_task 1 b2] st
    = ([TaskBody HTTP_200_OK t1; TaskBody HTTP_200_OK t2], st2) /\
    Task.title t2 = Some "Updated"%string /\
    Task.completed t2 = Some true.
Proof.
  intros st b1 b2.
  destruct (update_twice_merges ticking_clock st 1 b1 b2
              {| TaskUpdate.title := Given "Updated"%string;
                 TaskUpdate.description := Unset;
                 TaskUpdate.completed := Unset |}
              {| TaskUpdate.title := Unset; TaskUpdate.description := Unset;
                 TaskUpdate.completed := Given true |}
              {| Task.id := 1; Task.title := Some "Original"%string;
                 Task.description := None; Task.completed := Some false;
                 Task.created_at := 0; Task.updated_at := 1 |}
              eq_refl eq_refl eq_refl)
    as (t1 & t2 & st2 & Hserve & Ht & _ & Hc & _).
  exists t1, t2, st2. split; [exact Hserve|]. split; assumption.
Defined.

(** X13.  A successful Create in a reachable state puts the new task last
    in the unfiltered List and last in the List of the tasks not completed,
    and leaves the List of the completed tasks as it was: the new task has
    [completed = False], whatever the body says under [completed]; its title
    is the one sent and its description the one sent, or [None]. *)
Theorem create_appends_to_list (clock : nat -> Py.datetime) (st : state)
    (body : json_body) (task_data : TaskCreate.t) :
  reachable clock st ->
  TaskCreate.model_validate body = inr task_data ->
  exists task st',
    app clock (POST_tasks body) st = (TaskBody HTTP_201_CREATED task, st') /\
    body_title body = Given (TaskCreate.title task_data) /\
    Task.title task = Some (TaskCreate.title task_data) /\
    Task.description task = overwrite (body_description body) None /\
    Task.completed task = Some false /\
    get_tasks None st' = get_tasks None st ++ [task] /\
    get_tasks (Some false) st' = get_tasks (Some false) st ++ [task] /\
    get_tasks (Some true) st' = get_tasks (Some true) st.
Proof.
  intros Hreach Hv. apply reachable_store_inv in Hreach.
  unfold app. rewrite Hv, create_task_eq. cbv zeta.
  apply TaskCreate_validate_inr in Hv.
  destruct Hv as (s & Hs & _ & _ & ->).
  do 2 eexists. split; [reflexivity|]. simpl.
  split; [exact Hs|]. split; [reflexivity|].
  split; [now destruct (body_description body)|].
  split; [reflexivity|].
  rewrite !filter_loop. simpl.
  rewrite (setitem_absent _ _ _ (fresh_absent st Hreach)).
  unfold Py.values. rewrite map_app, !filter_app. simpl.
  rewrite app_nil_r. repeat split.
Qed.

(** A Create whose body carries [completed: true], after a completed task. *)
Lemma create_appends_to_list_witness :
  let st := snd (serve ticking_clock
                   [POST_tasks {| body_title := Given "Task 1"%string;
                                  body_description := Unset;
                                  body_completed := Unset |};
                    PUT_task 1 {| body_title := Unset;
                                  body_description := Unset;
                                  body_completed := Given true |}]
                   init_state) in
  let body := {| body_title := Given "Task 2"%string;
                 body_description := Null;
                 body_completed := Given true |} in
  exists task st',
    app ticking_clock (POST_tasks body) st
    = (TaskBody HTTP_201_CREATED task, st') /\
    Task.completed task = Some false /\
    map Task.id (get_tasks (Some false) st') = [2] /\
    map Task.id (get_tasks (Some true) st') = [1].
Proof.
  intros st body.
  destruct (create_appends_to_list ticking_clock st body
              {| TaskCreate.title := "Task 2"%string;
                 TaskCreate.description := None |})
    as (task & st' & Hpost & _ & _ & _ & Hc & _ & Hfalse & Htrue).
  - apply reachable_serve. constructor.
  - reflexivity.
  - exists task, st'. split; [exact Hpost|]. split; [exact Hc|].
    rewrite Hfalse, Htrue. unfold app in Hpost. simpl in Hpost.
    injection Hpost as <- _. split; reflexivity.
Defined.

(** X14.  A Create followed by a Delete of the id it returned gives the
    mapping of a reachable state back as it was; the counter stays one
    higher, so the id is spent. *)
Theorem create_then_delete_restores (clock : nat -> Py.datetime) (st : state)
    (body : json_body) (task_data : TaskCreate.t) :
  reachable clock st ->
  TaskCreate.model_validate body = inr task_data ->
  let st' := snd (serve clock [POST_tasks body; DELETE_task (next_id st)] st) in
  fst (serve clock [POST_tasks body; DELETE_task (next_id st)] st)
  = [TaskBody HTTP_201_CREATED
       {| Task.id := next_id st;
          Task.title := Some (TaskCreate.title task_data);
          Task.description := TaskCreate.description task_data;
          Task.completed := Some false;
          Task.created_at := clock (clock_reads st);
          Task.updated_at := clock (S (clock_reads st)) |};
     NoContent HTTP_204_NO_CONTENT] /\
  tasks_db st' = tasks_db st /\
  next_id st' = next_id st + 1.
Proof.
  intros Hreach Hv st'. subst st'. apply reachable_store_inv in Hreach.
  pose proof (fresh_absent st Hreach) as Hfresh.
  unfold serve, app. rewrite Hv, create_task_eq. cbv beta iota zeta.
  unfold delete_task. simpl tasks_db.
  rewrite contains_setitem, Z.eqb_refl. simpl.
  split; [reflexivity|]. split; [|reflexivity].
  rewrite setitem_absent by assumption.
  unfold Py.delitem. rewrite filter_app. simpl. rewrite Z.eqb_refl. simpl.
  rewrite app_nil_r. apply forallb_filter_id.
  apply forallb_forall. intros e He. apply negb_true_iff.
  destruct (Z.eqb_spec (fst e) (next_id st)) as [E|]; [|reflexivity].
  exfalso. assert (Hin : Py.contains (tasks_db st) (next_id st) = true).
  { apply contains_keys. rewrite <- E. unfold Py.keys. now apply in_map. }
  congruence.
Qed.

(** One task stored, a second created and deleted at once. *)
Lemma create_then_delete_restores_witness :
  let st := snd (app ticking_clock
                   (POST_tasks {| body_title := Given "Task 1"%string;
                                  body_description := Unset;
                                  body_completed := Unset |})
                   init_state) in
  let body := {| body_title := Given "To Delete"%string;
                 body_description := Unset;
                 body_completed := Unset |} in
  let st' := snd (serve ticking_clock [POST_tasks body; DELETE_task 2] st) in
  tasks_db st' = tasks_db st /\ next_id st' = 3.
Proof.
  intros st body st'.
  refine (proj2 (create_then_delete_restores ticking_clock st body
                   {| TaskCreate.title := "To Delete"%string;
                      TaskCreate.description := None |} _ _)).
  - apply (reachable_app ticking_clock _ init_state). constructor.
  - reflexivity.
Defined.

(** ** The fixture of the tests *)

Lemma app_later (clock : nat -> Py.datetime) (k : nat) req st1 st2 :
  tasks_db st1 = tasks_db st2 -> next_id st1 = next_id st2 ->
  clock_reads st1 = (k + clock_reads st2)%nat ->
  fst (app clock req st1) = fst (app (later k clock) req st2) /\
  tasks_db (snd (app clock req st1))
  = tasks_db (snd (app (later k clock) req st2)) /\
  next_id (snd (app clock req st1))
  = next_id (snd (app (later k clock) req st2)) /\
  clock_reads (snd (app clock req st1))
  = (k + clock_reads (snd (app (later k clock) req st2)))%nat.
Proof.
  destruct st1 as [db1 n1 r1], st2 as [db n r]. simpl.
  intros -> -> ->.
  destruct req as [c|i|b|i b|i]; unfold app.
  - repeat split.
  - repeat split.
  - destruct (TaskCreate.model_validate b); [repeat split|].
    rewrite !create_task_eq. cbv zeta. unfold later. simpl.
    rewrite !Nat.add_succ_r. repeat split.
  - destruct (TaskUpdate.model_validate b); [repeat split|].
    destruct (Py.getitem db i) as [task|] eqn:Hget.
    + rewrite (update_task_present clock i t
                 {| tasks_db := db; next_id := n; clock_reads := k + r |}
                 task Hget).
      rewrite (update_task_present (later k clock) i t
                 {| tasks_db := db; next_id := n; clock_reads := r |}
                 task Hget).
      cbv zeta. unfold later. simpl. rewrite !Nat.add_succ_r. repeat split.
    + apply getitem_absent in Hget.
      rewrite !update_task_absent by exact Hget. repeat split.
  - unfold delete_task. simpl. destruct (Py.contains db i); repeat split.
Qed.

Lemma serve_later (clock : nat -> Py.datetime) (k : nat) reqs st1 st2 :
  tasks_db st1 = tasks_db st2 -> next_id st1 = next_id st2 ->
  clock_reads st1 = (k + clock_reads st2)%nat ->
  fst (serve clock reqs st1) = fst (serve (later k clock) reqs st2) /\
  tasks_db (snd (serve clock reqs st1))
  = tasks_db (snd (serve (later k clock) reqs st2)) /\
  next_id (snd (serve clock reqs st1))
  = next_id (snd (serve (later k clock) reqs st2)).
Proof.
  revert st1 st2. induction reqs as [|req reqs IH]; intros st1 st2 Hdb Hn Hr;
    simpl; [repeat split; assumption|].
  destruct (app_later clock k req st1 st2 Hdb Hn Hr) as (Hresp & Hdb' & Hn' & Hr').
  destruct (app clock req st1) as [resp1 st1'].
  destruct (app (later k clock) req st2) as [resp2 st2']. simpl in *.
  destruct (IH st1' st2' Hdb' Hn' Hr') as (Hresps & Hdb'' & Hn'').
  destruct (serve clock reqs st1') as [resps1 st1''].
  destruct (serve (later k clock) reqs st2') as [resps2 st2'']. simpl in *.
  repeat split; congruence.
Qed.

(** X15.  After the [clear_database] fixture the service answers every
    session as a service that has just been started does under the same
    clock, from the reading the fixture ran at: the same responses, ids from
    1 included, and the same mapping and counter at the end. *)
Theorem clear_database_gives_fresh_service (clock : nat -> Py.datetime)
    (st : state) (reqs : list request) :
  fst (serve clock reqs (clear_database st))
  = fst (serve (later (clock_reads st) clock) reqs init_state) /\
  tasks_db (snd (serve clock reqs (clear_database st)))
  = tasks_db (snd (serve (later (clock_reads st) clock) reqs init_state)) /\
  next_id (snd (serve clock reqs (clear_database st)))
  = next_id (snd (serve (later (clock_reads st) clock) reqs init_state)).
Proof.
  apply serve_later; simpl; try reflexivity. lia.
Qed.

Example clear_database_restarts_ids :
  let st := snd (serve ticking_clock
                   [POST_tasks {| body_title := Given "Task 1"%string;
                                  body_description := Unset;
                                  body_completed := Unset |};
                    POST_tasks {| body_title := Given "Task 2"%string;
                                  body_description := Unset;
                                  body_completed := Unset |}]
                   init_state) in
  created_ids
    (fst (serve ticking_clock
            [GET_tasks None;
             POST_tasks {| body_title := Given "New Task"%string;
                           body_description := Unset;
                           body_completed := Unset |}]
            (clear_database st)))
  = [1].
Proof. reflexivity. Qed.

(** ** Listing, for every store *)

(** Two tasks, the first completed: each filter lists one of them. *)
Lemma get_tasks_spec_witness :
  let st := snd (serve ticking_clock
                   [POST_tasks {| body_title := Given "Task 1"%string;
                                  body_description := Unset;
                                  body_completed := Unset |};
                    POST_tasks {| body_title := Given "Task 2"%string;
                                  body_description := Unset;
                                  body_completed := Unset |};
                    PUT_task 1 {| body_title := Unset;
                                  body_description := Unset;
                                  body_completed := Given true |}]
                   init_state) in
  map Task.id (get_tasks (Some true) st) = [1] /\
  map Task.id (get_tasks (Some false) st) = [2] /\
  Permutation (get_tasks (Some true) st ++ get_tasks (Some false) st)
              (get_tasks None st).
Proof.
  intros st. split; [reflexivity|]. split; [reflexivity|].
  refine (proj2 (proj2 (proj2 (proj2 (get_tasks_spec ticking_clock st)))) _).
  intros task Htask. simpl in Htask.
  destruct Htask as [<-|[<-|[]]]; discriminate.
Defined.
